(** * A shallow embedding of the query pipeline (validator, processor, pipeline)

    The Python sources [validator.py], [processor.py], [pipeline.py],
    [models.py], [config.py], [prompts.py] and [prompt_templates.py] are
    embedded as functions in a small state-and-exception monad.  The world
    threaded through the monad holds what the code observes or changes
    outside its own values: the log, the chat requests issued so far, and
    how often the identifier generator and the clock were consulted. *)

From Stdlib Require Import ZArith Lia Ascii Floats Sorted Permutation.
From stdpp Require Import gmap list strings.

Open Scope Z_scope.

(* ================================================================== *)
(** * Python values *)
(* ================================================================== *)

(** A Python [str] is a sequence of Unicode code points. *)
Definition char := N.
Definition str := list char.

(** ASCII literals of the source, as code points. *)
Definition lit (s : string) : str := map N_of_ascii (String.list_ascii_of_string s).

Arguments lit : simpl never.

(** The line feed character of the triple-quoted template. *)
Definition nl : str := [10%N].

(** [len(s)] *)
Definition len {A} (l : list A) : Z := Z.of_nat (length l).

(** [str.isspace] on one code point: the characters that [str.strip()] and
    [str.split()] (both without argument) treat as whitespace. *)
Definition isspace (c : char) : bool :=
  ((9 <=? c) && (c <=? 13) || (28 <=? c) && (c <=? 32)
   || (c =? 133) || (c =? 160) || (c =? 5760)
   || (8192 <=? c) && (c <=? 8202)
   || (c =? 8232) || (c =? 8233) || (c =? 8239) || (c =? 8287)
   || (c =? 12288))%N.

Fixpoint lstrip (s : str) : str :=
  match s with
  | c :: s' => if isspace c then lstrip s' else s
  | [] => []
  end.

Definition rstrip (s : str) : str := rev (lstrip (rev s)).

(** [s.strip()] *)
Definition strip (s : str) : str := rstrip (lstrip s).

(** [s.split()]: maximal runs of non-whitespace characters; [word] is the
    run being read, most recent character first. *)
Fixpoint split_from (word : str) (s : str) : list str :=
  match s with
  | [] => match word with [] => [] | _ => [rev word] end
  | c :: s' =>
      if isspace c
      then match word with
           | [] => split_from [] s'
           | _ => rev word :: split_from [] s'
           end
      else split_from (c :: word) s'
  end.

Definition split (s : str) : list str := split_from [] s.

(** [sep.join(parts)] *)
Fixpoint join (sep : str) (parts : list str) : str :=
  match parts with
  | [] => []
  | [p] => p
  | p :: rest => p ++ sep ++ join sep rest
  end.

(** Values produced by [json.loads] and stored in [dict]s. *)
#[warnings="-register-all"]
Inductive pyobj :=
| PyNone
| PyBool (b : bool)
| PyInt (z : Z)
| PyFloat (f : float)
| PyStr (s : str)
| PyList (l : list pyobj)
| PyDict (d : gmap str pyobj).

(** Exception messages of the [RuntimeError]s and the [ValueError] raised by
    the code; the numbers are the ones the f-strings interpolate. *)
Inductive message :=
| FailedToGenerateQueryId            (* "Failed to generate query_id" *)
| QueryTooShort (minimum : Z)        (* "Query too short (minimum {n} characters)" *)
| QueryTooLong (maximum : Z)         (* "Query too long (maximum {n} characters)" *)
| ErrorInLLMApiResponse              (* "Error in LLM API response" *)
| ErrorParsingLLMResponse            (* "Error parsing LLM response" *)
| EmptyLLMResponse                   (* "Empty LLM response" *)
| QueryCannotBeEmpty.                (* "Query cannot be empty" *)

(** Exceptions, by class.  [ValidationError] is pydantic's (a subclass of
    [ValueError]), [JSONDecodeError] is [json]'s (also a [ValueError]);
    [OtherException] stands for any further subclass of [Exception] an
    external call may raise. *)
Inductive exn :=
| RuntimeError (m : message)
| ValueError (m : message)
| ValidationError (m : message)
| JSONDecodeError
| AttributeError
| IndexError
| FileNotFoundError
| OtherException (name : string).

Inductive result (A : Type) :=
| Ok (a : A)
| Raise (e : exn).
Arguments Ok {A} a.
Arguments Raise {A} e.

(** [isinstance(e, (IndexError, AttributeError, ValueError))] *)
Definition is_parse_error (e : exn) : bool :=
  match e with
  | IndexError | AttributeError | ValueError _ | ValidationError _
  | JSONDecodeError => true
  | _ => false
  end.

(** [o.get(key, default)]; only a [dict] has the method. *)
Definition py_get (o : pyobj) (key : str) (default : pyobj) : result pyobj :=
  match o with
  | PyDict d => Ok (match d !! key with Some v => v | None => default end)
  | _ => Raise AttributeError
  end.

(** [list.sort(reverse=True, key=key)].  Python's sort is stable and keeps
    the original order of elements with equal keys also under
    [reverse=True]; the list it produces is modelled by stable insertion
    into a list of descending keys. *)
Fixpoint insert_desc {A} (key : A -> Z) (x : A) (l : list A) : list A :=
  match l with
  | [] => [x]
  | y :: l' => if key x <? key y then y :: insert_desc key x l' else x :: l
  end.

Definition sort_reverse {A} (key : A -> Z) (l : list A) : list A :=
  foldr (insert_desc key) [] l.

(** Keys never increase along the list. *)
Definition descending {A} (key : A -> Z) : list A -> Prop :=
  StronglySorted (fun a b => key b <= key a).

(** [l[:k]]: a negative bound counts from the end. *)
Definition slice_to {A} (l : list A) (k : Z) : list A :=
  if 0 <=? k then take (Z.to_nat k) l else take (Z.to_nat (len l + k)) l.

(* ================================================================== *)
(** * models.py, prompt_templates.py, prompts.py, config.py *)
(* ================================================================== *)

Module UserQuery.
Record t := mk { query_id : str; query : str }.

(** The model's constructor runs the [field_validator] of [query]. *)
Definition new (query_id query : str) : result t :=
  match query, strip query with
  | [], _ | _, [] => Raise (ValidationError QueryCannotBeEmpty)
  | _, _ => Ok (mk query_id (strip query))
  end.
End UserQuery.

Module ProcessorResult.
Record t := mk {
  query_id : str;
  answer : str;
  sources_used : list str;
  confidence : float
}.

Definition new (query_id answer : str) (sources_used : list str) : t :=
  mk query_id answer sources_used 0%float.
End ProcessorResult.

Module PipelineResult.
Record t := mk {
  query_id : str;
  query : str;
  answer : str;
  sources : list str;
  processing_time_ms : float;
  metadata : gmap str pyobj
}.
End PipelineResult.

Module PromptTemplate.
Record t := mk {
  name : str;
  version : str;
  prompt : str;
  last_modified : Z * Z * Z;
  tested_models : list str;
  author : str;
  description : str
}.
End PromptTemplate.

Definition SYSTEM_PROMPT : PromptTemplate.t :=
  PromptTemplate.mk (lit "system") (lit "1.0.0")
    (lit "You are a helpful AI assistant...")
    (2026, 1, 22) [lit "gpt-4o-mini"; lit "gpt-4o"] (lit "X")
    (lit "General Q&A").

Definition SYSTEM_RAG_PROMPT : PromptTemplate.t :=
  PromptTemplate.mk (lit "system_rag") (lit "1.0.0")
    (lit "You are a helpful AI assistant with context...")
    (2026, 1, 22) [lit "gpt-4o-mini"] (lit "X")
    (lit "RAG optimized").

Module Settings.
Record t := mk {
  openai_api_key : option str;
  model_name : str;
  temperature : float;
  max_tokens : Z;
  min_query_length : Z;
  max_query_length : Z;
  enable_retrieval : bool;
  knowledge_base_path : str;
  top_k : Z;
  processing_mode : str
}.

(** The defaults of [config.py]. *)
Definition default : t :=
  mk None (lit "gpt-4o-mini") 0x1.6666666666666p-1%float 1000 3 2000 false
     (lit "data/faq.jsonl") 3 (lit "default").
End Settings.

(* ================================================================== *)
(** * The runtime and the world *)
(* ================================================================== *)

(** One chat-completion request: model, system and user message, sampling
    temperature and token limit. *)
Module ChatRequest.
Record t := mk {
  model : str;
  system_content : str;
  user_content : str;
  temperature : float;
  max_tokens : Z
}.
End ChatRequest.

(** The part of the SDK's response object the code reads:
    [response.choices[0].message.content], where [content] is optional. *)
Module ChatCompletion.
Record message := mk_message { content : option str }.
Record choice := mk_choice { message_of : message }.
Record t := mk { choices : list choice }.
End ChatCompletion.

(** An [OpenAI] client: its answer to a request, given the number of
    requests issued before. *)
Definition OpenAI := nat -> ChatRequest.t -> result ChatCompletion.t.

(** What the interpreter, its libraries and the machine contribute:
    the Unicode tables behind [str.lower], [json.loads], the file system at
    start-up, the identifier generator, the clock and the SDK. *)
Module Runtime.
Record t := mk {
  tolower_full : char -> str;
  is_cased : char -> bool;
  is_case_ignorable : char -> bool;
  json_loads : str -> result pyobj;
  open_lines : str -> result (list str);
  ULID_str : nat -> result str;
  time_time : nat -> float;
  OpenAI_new : option str -> result OpenAI
}.
End Runtime.

Inductive level := DEBUG | INFO | WARNING | ERROR.

Module World.
Record t := mk {
  logs : list (level * string);
  llm_calls : list ChatRequest.t;
  ulids : nat;
  clock : nat
}.
Definition init : t := mk [] [] 0%nat 0%nat.
End World.

(** Computations: a world in, a world and a value or an exception out. *)
Definition M (A : Type) : Type := World.t -> World.t * result A.

Definition ret {A} (a : A) : M A := fun w => (w, Ok a).

Definition raise {A} (e : exn) : M A := fun w => (w, Raise e).

Definition bind {A B} (m : M A) (k : A -> M B) : M B :=
  fun w => match m w with
           | (w', Ok a) => k a w'
           | (w', Raise e) => (w', Raise e)
           end.

Notation "x <- m ;; k" := (bind m (fun x => k))
  (at level 100, m at next level, right associativity).
Notation "m ;;; k" := (bind m (fun _ => k))
  (at level 100, right associativity).

(** [try: body  except Exception as e: handler e] *)
Definition try_except {A} (body : M A) (handler : exn -> M A) : M A :=
  fun w => match body w with
           | (w', Ok a) => (w', Ok a)
           | (w', Raise e) => handler e w'
           end.

(** A value computed without touching the world. *)
Definition lift {A} (r : result A) : M A := fun w => (w, r).

(** [if c: body] *)
Definition when (c : bool) (body : M unit) : M unit :=
  if c then body else ret tt.

(** [self.name]: reading an attribute that was never assigned raises. *)
Definition attr {A} (field : option A) : M A :=
  match field with
  | Some a => ret a
  | None => raise AttributeError
  end.

(** [logger.debug/info/warning/error(msg, extra=...)]: the record is kept
    with its level and message. *)
Definition logger (lvl : level) (msg : string) : M unit :=
  fun w => (World.mk (World.logs w ++ [(lvl, msg)]) (World.llm_calls w)
                     (World.ulids w) (World.clock w), Ok tt).

Section Builtins.
Context (rt : Runtime.t).

(** [str.lower]: every character is replaced by its full lower-case
    mapping; a capital sigma becomes a final sigma when a cased letter
    precedes it and none follows (case-ignorable characters skipped). *)
Fixpoint skip_ignorable (s : str) : option char :=
  match s with
  | [] => None
  | c :: s' => if Runtime.is_case_ignorable rt c then skip_ignorable s' else Some c
  end.

Definition final_sigma (before after : str) : bool :=
  match skip_ignorable before with
  | Some c =>
      Runtime.is_cased rt c &&
      match skip_ignorable after with
      | Some c' => negb (Runtime.is_cased rt c')
      | None => true
      end
  | None => false
  end.

Fixpoint lower_from (before : str) (s : str) : str :=
  match s with
  | [] => []
  | c :: s' =>
      (if (c =? 931)%N
       then [if final_sigma before s' then 962%N else 963%N]
       else Runtime.tolower_full rt c) ++ lower_from (c :: before) s'
  end.

Definition lower (s : str) : str := lower_from [] s.

(** [set(s.lower().split())] *)
Definition words (s : str) : gset str := list_to_set (split (lower s)).

(** [str(ULID())] *)
Definition new_ulid : M str :=
  fun w => (World.mk (World.logs w) (World.llm_calls w)
                     (S (World.ulids w)) (World.clock w),
            Runtime.ULID_str rt (World.ulids w)).

(** [time.time()] *)
Definition time : M float :=
  fun w => (World.mk (World.logs w) (World.llm_calls w)
                     (World.ulids w) (S (World.clock w)),
            Ok (Runtime.time_time rt (World.clock w))).

(** [client.chat.completions.create(...)] *)
Definition chat_completions_create (client : OpenAI) (req : ChatRequest.t)
  : M ChatCompletion.t :=
  fun w => (World.mk (World.logs w) (World.llm_calls w ++ [req])
                     (World.ulids w) (World.clock w),
            client (length (World.llm_calls w)) req).
End Builtins.

(* ================================================================== *)
(** * validator.py *)
(* ================================================================== *)

Module Validator.
Record t := mk { process_step : str }.

Definition __init__ : M t := ret (mk (lit "1_validation")).

Section Methods.
Context (rt : Runtime.t) (settings : Settings.t).

Definition validate (self : t) (query : str) : M UserQuery.t :=
  query_id <-
    try_except (new_ulid rt)
      (fun e =>
         logger ERROR "ULID generation failed" ;;;
         raise (RuntimeError FailedToGenerateQueryId)) ;;
  logger INFO "Validation started" ;;;
  let query_clean := strip query in
  when (len query_clean <? Settings.min_query_length settings)
    (logger WARNING "Query too short" ;;;
     raise (RuntimeError (QueryTooShort (Settings.min_query_length settings)))) ;;;
  when (len query_clean >? Settings.max_query_length settings)
    (logger WARNING "Query too long" ;;;
     raise (RuntimeError (QueryTooLong (Settings.max_query_length settings)))) ;;;
  logger INFO "Validation completed successfully" ;;;
  lift (UserQuery.new query_id query_clean).
End Methods.
End Validator.

(* ================================================================== *)
(** * processor.py *)
(* ================================================================== *)

Module Processor.
(** An instance is the set of attributes assigned so far: [__init__]
    calls methods of the object while it is still being filled in. *)
Record t := mk {
  client : option OpenAI;
  prompt_template : option PromptTemplate.t;
  process_step : option str;
  knowledge_base : option (list pyobj)
}.

Definition blank : t := mk None None None None.

Definition set_client (self : t) (v : OpenAI) : t :=
  mk (Some v) (prompt_template self) (process_step self) (knowledge_base self).
Definition set_prompt_template (self : t) (v : PromptTemplate.t) : t :=
  mk (client self) (Some v) (process_step self) (knowledge_base self).
Definition set_process_step (self : t) (v : str) : t :=
  mk (client self) (prompt_template self) (Some v) (knowledge_base self).
Definition set_knowledge_base (self : t) (v : list pyobj) : t :=
  mk (client self) (prompt_template self) (process_step self) (Some v).

Section Methods.
Context (rt : Runtime.t) (settings : Settings.t).

Definition _load_system_prompt (self : t) : M PromptTemplate.t :=
  if Settings.enable_retrieval settings
  then
    let prompt := SYSTEM_RAG_PROMPT in
    _ <- attr (process_step self) ;;
    logger DEBUG "Loaded RAG-optimized prompt" ;;;
    ret prompt
  else
    let prompt := SYSTEM_PROMPT in
    _ <- attr (process_step self) ;;
    logger DEBUG "Loaded standard prompt" ;;;
    ret prompt.

(** The loop [for line in f: docs.append(json.loads(line.strip()))]. *)
Fixpoint read_documents (lines : list str) (docs : list pyobj)
  : result (list pyobj) :=
  match lines with
  | [] => Ok docs
  | line :: rest =>
      match Runtime.json_loads rt (strip line) with
      | Ok doc => read_documents rest (docs ++ [doc])
      | Raise e => Raise e
      end
  end.

Definition _load_knowledge_base (self : t) : M (list pyobj) :=
  try_except
    (lines <- lift (Runtime.open_lines rt
                      (Settings.knowledge_base_path settings)) ;;
     lift (read_documents lines []))
    (fun e =>
       match e with
       | FileNotFoundError =>
           _ <- attr (process_step self) ;;
           logger WARNING "Knowledge base file not found" ;;;
           ret []
       | _ =>
           _ <- attr (process_step self) ;;
           logger ERROR "Failed to load knowledge base" ;;;
           ret []
       end).

Definition __init__ : M t :=
  let self := blank in
  client <- lift (Runtime.OpenAI_new rt (Settings.openai_api_key settings)) ;;
  let self := set_client self client in
  prompt <- _load_system_prompt self ;;
  let self := set_prompt_template self prompt in
  let self := set_process_step self (lit "2_processor") in
  _ <- attr (process_step self) ;;
  template <- attr (prompt_template self) ;;
  logger INFO "Prompt loaded" ;;;
  when (negb (bool_decide (Settings.model_name settings
                             ∈ PromptTemplate.tested_models template)))
    (logger WARNING "Untested prompt/model combination") ;;;
  if Settings.enable_retrieval settings
  then
    docs <- _load_knowledge_base self ;;
    let self := set_knowledge_base self docs in
    logger INFO "Knowledge base loaded" ;;;
    ret self
  else
    let self := set_knowledge_base self [] in
    logger INFO "Retrieval disabled" ;;;
    ret self.

(** The overlap score of the loop body:
    [len(query_words & set(doc_text.lower().split()))]. *)
Definition overlap (query_words : gset str) (doc_text : str) : Z :=
  Z.of_nat (size (query_words ∩ words rt doc_text)).

(** The scoring loop, with [scored_docs] as built so far. *)
Fixpoint score_documents (query_words : gset str) (docs : list pyobj)
    (scored_docs : list (Z * str)) : result (list (Z * str)) :=
  match docs with
  | [] => Ok scored_docs
  | doc :: rest =>
      match py_get doc (lit "text") (PyStr []) with
      | Ok (PyStr doc_text) =>
          let score := overlap query_words doc_text in
          score_documents query_words rest
            (if score >? 0 then scored_docs ++ [(score, doc_text)]
             else scored_docs)
      | Ok _ => Raise AttributeError      (* no [lower] on other values *)
      | Raise e => Raise e
      end
  end.

Definition _retrieve_context (self : t) (query : str) : M (list str) :=
  if negb (Settings.enable_retrieval settings) then ret []
  else
    docs <- attr (knowledge_base self) ;;
    match docs with
    | [] => ret []
    | _ =>
        let query_words := words rt query in
        scored_docs <- lift (score_documents query_words docs []) ;;
        let scored_docs := sort_reverse fst scored_docs in
        let relevant_docs :=
          map snd (slice_to scored_docs (Settings.top_k settings)) in
        _ <- attr (process_step self) ;;
        logger DEBUG "Context retrieved" ;;;
        ret relevant_docs
    end.

(** [response.choices[0].message.content.strip()] *)
Definition message_text (response : ChatCompletion.t) : result str :=
  match ChatCompletion.choices response with
  | [] => Raise IndexError
  | choice :: _ =>
      match ChatCompletion.content (ChatCompletion.message_of choice) with
      | None => Raise AttributeError
      | Some content => Ok (strip content)
      end
  end.

Definition process (self : t) (item : UserQuery.t) : M ProcessorResult.t :=
  _ <- attr (process_step self) ;;
  logger INFO "Processor started" ;;;
  context_docs <- _retrieve_context self (UserQuery.query item) ;;
  user_prompt <-
    match context_docs with
    | _ :: _ =>
        let context_text := join (nl ++ nl) context_docs in
        let user_prompt :=
          lit "Context information:" ++ nl ++ context_text ++ nl ++ nl
          ++ lit "Question: " ++ UserQuery.query item ++ nl ++ nl
          ++ lit "Answer based on the context above. If the context doesn't contain relevant information, say so." in
        _ <- attr (process_step self) ;;
        logger DEBUG "Using RAG mode" ;;;
        ret user_prompt
    | [] =>
        let user_prompt := UserQuery.query item in
        _ <- attr (process_step self) ;;
        logger DEBUG "Using direct mode (no RAG)" ;;;
        ret user_prompt
    end ;;
  response <-
    try_except
      (client <- attr (client self) ;;
       template <- attr (prompt_template self) ;;
       chat_completions_create client
         (ChatRequest.mk (Settings.model_name settings)
            (PromptTemplate.prompt template) user_prompt
            (Settings.temperature settings) (Settings.max_tokens settings)))
      (fun e =>
         _ <- attr (process_step self) ;;
         logger ERROR "LLM API call failed" ;;;
         raise (RuntimeError ErrorInLLMApiResponse)) ;;
  answer <-
    try_except
      (answer <- lift (message_text response) ;;
       when (bool_decide (answer = []))
         (raise (ValueError EmptyLLMResponse)) ;;;
       _ <- attr (process_step self) ;;
       logger DEBUG "LLM response successful" ;;;
       ret answer)
      (fun e =>
         if is_parse_error e
         then
           _ <- attr (process_step self) ;;
           logger ERROR "Failed to parse LLM response" ;;;
           raise (RuntimeError ErrorParsingLLMResponse)
         else raise e) ;;
  _ <- attr (process_step self) ;;
  logger INFO "Processor completed" ;;;
  ret (ProcessorResult.new (UserQuery.query_id item) answer
         (match context_docs with [] => [] | _ => context_docs end)).
End Methods.
End Processor.

(* ================================================================== *)
(** * pipeline.py *)
(* ================================================================== *)

Module Pipeline.
Record t := mk {
  validator : Validator.t;
  processor : Processor.t;
  process_step : str
}.

Section Methods.
Context (rt : Runtime.t) (settings : Settings.t).

Definition __init__ : M t :=
  logger INFO "Initializing pipeline components..." ;;;
  validator <- Validator.__init__ ;;
  logger INFO "✓ Validator ready" ;;;
  processor <- Processor.__init__ rt settings ;;
  logger INFO "✓ Processor ready" ;;;
  let process_step := lit "0_pipeline" in
  logger INFO "✅ Pipeline initialized successfully" ;;;
  ret (mk validator processor process_step).

Definition process (self : t) (query : str) : M PipelineResult.t :=
  start_time <- time rt ;;
  validated_query <- Validator.validate rt settings (validator self) query ;;
  logger INFO "Pipeline started" ;;;
  processor_result <-
    Processor.process rt settings (processor self) validated_query ;;
  now <- time rt ;;
  let processing_time_ms := ((now - start_time) * 1000)%float in
  let sources_used := ProcessorResult.sources_used processor_result in
  let final_result :=
    PipelineResult.mk
      (ProcessorResult.query_id processor_result)
      (UserQuery.query validated_query)
      (ProcessorResult.answer processor_result)
      sources_used
      processing_time_ms
      (<[lit "sources_count" := PyInt (len sources_used)]>
         (<[lit "has_context" := PyBool (len sources_used >? 0)]> ∅)) in
  logger INFO "Pipeline completed" ;;;
  ret final_result.
End Methods.
End Pipeline.


(* ================================================================== *)
(** * Notions of the specification *)
(* ================================================================== *)

Section Specification.
Context (rt : Runtime.t).

(** The words of a string in the specification's sense: the string is
    lower-cased and split on whitespace. *)
Definition word_list (s : str) : list str := split (lower rt s).

(** The distinct words a query and a document text share. *)
Definition shared_words (query doc_text : str) : list str :=
  remove_dups
    (filter (fun w => w ∈ word_list doc_text) (word_list query)).

(** The lexical overlap score of the glossary. *)
Definition lexical_overlap (query doc_text : str) : Z :=
  len (shared_words query doc_text).
End Specification.

(** A knowledge document as the data model has it: a JSON object whose
    [text], when the field is present, is a string; [text] is then what
    [doc.get('text', '')] yields. *)
Definition has_text (doc : pyobj) (text : str) : Prop :=
  py_get doc (lit "text") (PyStr []) = Ok (PyStr text).

(** The texts of positive score in the order [_retrieve_context] ranks
    them, before the list is cut to [top_k]. *)
Definition ranking (rt : Runtime.t) (query : str) (texts : list str)
  : list str :=
  let score := Processor.overlap rt (words rt query) in
  sort_reverse score (filter (fun t => 0 < score t) texts).

(* ================================================================== *)
(** * A small runtime and corpus for examples *)
(* ================================================================== *)

Module Demo.
(** The ASCII part of the Unicode tables. *)
Definition tolower_full (c : char) : str :=
  if ((65 <=? c) && (c <=? 90))%N then [(c + 32)%N] else [c].
Definition is_cased (c : char) : bool :=
  ((65 <=? c) && (c <=? 90) || (97 <=? c) && (c <=? 122))%N.
Definition is_case_ignorable (c : char) : bool :=
  bool_decide (c ∈ [39; 46; 58; 94; 96]%N).

Fixpoint strip_prefix (p s : str) : option str :=
  match p, s with
  | [], _ => Some s
  | c :: p', d :: s' => if (c =? d)%N then strip_prefix p' s' else None
  | _ :: _, [] => None
  end.

Definition quote : str := [34%N].

(** A JSON reader for the two shapes of line the examples use: the empty
    object, and an object with the one field [text] and no escapes. *)
Definition json_loads (line : str) : result pyobj :=
  if bool_decide (line = lit "{}") then Ok (PyDict ∅)
  else
    match strip_prefix (lit "{" ++ quote ++ lit "text" ++ quote
                        ++ lit ": " ++ quote) line with
    | Some rest =>
        match strip_prefix (lit "}" ++ quote) (rev rest) with
        | Some text =>
            if bool_decide (34%N ∈ text) then Raise JSONDecodeError
            else Ok (PyDict {[ lit "text" := PyStr (rev text) ]})
        | None => Raise JSONDecodeError
        end
    | None => Raise JSONDecodeError
    end.

Definition json_line (text : string) : str :=
  lit "{" ++ quote ++ lit "text" ++ quote ++ lit ": " ++ quote
  ++ lit text ++ quote ++ lit "}" ++ nl.

(** A file system holding the one file [path], with the given lines. *)
Definition one_file (path : str) (lines : list str) (p : str)
  : result (list str) :=
  if bool_decide (p = path) then Ok lines else Raise FileNotFoundError.

Definition no_file (p : str) : result (list str) := Raise FileNotFoundError.

Definition ULID_str (n : nat) : result str :=
  Ok (lit "01JBX5Z3NDEKTSV4RRFFQ69G5" ++ [N.of_nat (48 + n mod 10)]).

Definition time_time (n : nat) : float :=
  match n with O => 1730000000.5%float | _ => 1730000001.75%float end.

(** A client that sends [reply] back, whatever it is asked. *)
Definition reply_with (reply : ChatCompletion.t) : OpenAI :=
  fun _ _ => Ok reply.

Definition completion (text : string) : ChatCompletion.t :=
  ChatCompletion.mk
    [ChatCompletion.mk_choice (ChatCompletion.mk_message (Some (lit text)))].

Definition runtime (ulid : nat -> result str)
    (files : str -> result (list str)) (client : OpenAI) : Runtime.t :=
  Runtime.mk tolower_full is_cased is_case_ignorable json_loads files ulid
    time_time (fun _ => Ok client).

Definition rt : Runtime.t :=
  runtime ULID_str no_file (reply_with (completion "  Use the reset link. ")).

(** The same runtime with an identifier generator that fails. *)
Definition no_ulid (n : nat) : result str := Raise (OtherException "OSError").
Definition rt_no_ulid : Runtime.t :=
  runtime no_ulid no_file (reply_with (completion "  Use the reset link. ")).

Definition doc (text : string) : pyobj :=
  PyDict {[ lit "text" := PyStr (lit text) ]}.

(** Four documents whose overlap with [query] is 3, 1, 3 and 0. *)
Definition query : str := lit "Reset my password".
Definition text1 := "How to reset my password".
Definition text2 := "Update my billing address".
Definition text3 := "Password reset for my profile".
Definition text4 := "Shipping times and costs".
Definition corpus : list pyobj := [doc text1; doc text2; doc text3; doc text4].

(** Settings with retrieval switched on and the given [top_k]. *)
Definition rag (top_k : Z) : Settings.t :=
  Settings.mk None (lit "gpt-4o-mini") 0x1.6666666666666p-1%float 1000
    3 2000 true (lit "data/faq.jsonl") top_k (lit "default").

(** Settings with the given bounds on the query length. *)
Definition bounds (lo hi : Z) : Settings.t :=
  Settings.mk None (lit "gpt-4o-mini") 0x1.6666666666666p-1%float 1000
    lo hi false (lit "data/faq.jsonl") 3 (lit "default").

(** A processor as [__init__] means to leave it. *)
Definition processor_with (client : OpenAI) (template : PromptTemplate.t)
    (docs : list pyobj) : Processor.t :=
  Processor.mk (Some client) (Some template) (Some (lit "2_processor"))
    (Some docs).

Definition processor : PromptTemplate.t -> list pyobj -> Processor.t :=
  processor_with (reply_with (completion "  Use the reset link. ")).

Definition item : UserQuery.t :=
  UserQuery.mk (lit "01JBX5Z3NDEKTSV4RRFFQ69G50") query.

Definition validator : Validator.t := Validator.mk (lit "1_validation").

Definition pipeline (template : PromptTemplate.t) (docs : list pyobj)
  : Pipeline.t :=
  Pipeline.mk validator (processor template docs) (lit "0_pipeline").
End Demo.

(** An entry of [scored_docs] as the scoring loop writes it: a positive
    score, the score of its text. *)
Definition scored (rt : Runtime.t) (qw : gset str) (entry : Z * str) : Prop :=
  0 < entry.1 /\ entry.1 = Processor.overlap rt qw entry.2.

(** A response from which no answer text can be taken: no choice, no
    content, or a content that is empty once trimmed. *)
Definition empty_response (response : ChatCompletion.t) : Prop :=
  match ChatCompletion.choices response with
  | [] => True
  | choice :: _ =>
      match ChatCompletion.content (ChatCompletion.message_of choice) with
      | None => True
      | Some content => strip content = []
      end
  end.

(* ================================================================== *)
(** * Notions used by the further properties *)
(* ================================================================== *)

(** The text [_retrieve_context] reads off a document, when it can: the
    document must be a [dict], and its [text], if present, a string. *)
Definition text_of (doc : pyobj) : option str :=
  match py_get doc (lit "text") (PyStr []) with
  | Ok (PyStr text) => Some text
  | _ => None
  end.

(** The user message [process] composes from the query and the context. *)
Definition composed_prompt (query : str) (context_docs : list str) : str :=
  match context_docs with
  | [] => query
  | _ =>
      lit "Context information:" ++ nl
      ++ join (nl ++ nl) context_docs ++ nl ++ nl
      ++ lit "Question: " ++ query ++ nl ++ nl
      ++ lit "Answer based on the context above. If the context doesn't contain relevant information, say so."
  end.

(** The request [process] issues for a query and a context. *)
Definition chat_request (settings : Settings.t) (template : PromptTemplate.t)
    (query : str) (context_docs : list str) : ChatRequest.t :=
  ChatRequest.mk (Settings.model_name settings)
    (PromptTemplate.prompt template) (composed_prompt query context_docs)
    (Settings.temperature settings) (Settings.max_tokens settings).

(* ================================================================== *)
(** * main.py: the pipeline singleton and start-up *)
(* ================================================================== *)

Module Main.
Section Endpoints.
Context (rt : Runtime.t) (settings : Settings.t).

(** [get_pipeline]: [instance] is the function attribute
    [get_pipeline.instance], [None] while it has not been assigned; the
    attribute after the call is returned with the pipeline. *)
Definition get_pipeline (instance : option Pipeline.t)
  : M (option Pipeline.t * Pipeline.t) :=
  match instance with
  | None =>
      pipeline <- Pipeline.__init__ rt settings ;;
      ret (Some pipeline, pipeline)
  | Some pipeline => ret (Some pipeline, pipeline)
  end.

(** [startup_event]; the attribute after the call is returned. *)
Definition startup_event (instance : option Pipeline.t)
  : M (option Pipeline.t) :=
  logger INFO "==================================================" ;;;
  logger INFO "🚀 API Server Starting..." ;;;
  logger INFO "==================================================" ;;;
  got <- get_pipeline instance ;;
  logger INFO "✅ Server ready" ;;;
  ret (fst got).
End Endpoints.
End Main.
(* ================================================================== *)
(** * Trimming *)
(* ================================================================== *)

Lemma lstrip_fixed c s : isspace c = false -> lstrip (c :: s) = c :: s.
Proof. intros H. simpl. now rewrite H. Qed.

Lemma lstrip_idem s : lstrip (lstrip s) = lstrip s.
Proof.
  induction s as [|c s IH]; [reflexivity|].
  simpl. destruct (isspace c) eqn:E; [exact IH|].
  simpl. now rewrite E.
Qed.

Lemma lstrip_snoc s c :
  isspace c = false -> lstrip (s ++ [c]) = lstrip s ++ [c].
Proof.
  intros H. induction s as [|d s IH]; simpl.
  - now rewrite H.
  - destruct (isspace d); [exact IH | reflexivity].
Qed.

Lemma rstrip_cons c s : isspace c = false -> rstrip (c :: s) = c :: rstrip s.
Proof.
  intros H. unfold rstrip. simpl.
  rewrite lstrip_snoc by exact H.
  now rewrite rev_app_distr.
Qed.

Lemma rstrip_idem s : rstrip (rstrip s) = rstrip s.
Proof.
  unfold rstrip. now rewrite rev_involutive, lstrip_idem.
Qed.

(** What [lstrip] returns starts with a character that is no whitespace. *)
Lemma lstrip_head s :
  lstrip s = [] \/ exists c s', lstrip s = c :: s' /\ isspace c = false.
Proof.
  induction s as [|c s IH]; [now left|].
  simpl. destruct (isspace c) eqn:E; [exact IH|].
  right. now exists c, s.
Qed.

Lemma strip_idem s : strip (strip s) = strip s.
Proof.
  unfold strip.
  destruct (lstrip_head s) as [-> | (c & s' & -> & Hc)]; [reflexivity|].
  rewrite (rstrip_cons c s' Hc), (lstrip_fixed c _ Hc).
  rewrite <- (rstrip_cons c s' Hc). apply rstrip_idem.
Qed.

(* ================================================================== *)
(** * The stable descending sort *)
(* ================================================================== *)

Section Sorting.
Context {A : Type} (key : A -> Z).

Lemma insert_desc_perm x l : Permutation (insert_desc key x l) (x :: l).
Proof.
  induction l as [|y l IH]; simpl; [reflexivity|].
  destruct (key x <? key y); [|reflexivity].
  rewrite IH. apply perm_swap.
Qed.

Lemma sort_reverse_perm l : Permutation (sort_reverse key l) l.
Proof.
  induction l as [|x l IH]; simpl; [reflexivity|].
  rewrite insert_desc_perm. now constructor.
Qed.

Lemma sort_reverse_length l : length (sort_reverse key l) = length l.
Proof. apply Permutation_length, sort_reverse_perm. Qed.

Lemma insert_desc_descending x l :
  descending key l -> descending key (insert_desc key x l).
Proof.
  unfold descending. induction l as [|y l IH]; intros Hs; simpl.
  - repeat constructor.
  - inversion Hs as [|? ? Hl Hy]; subst.
    destruct (key x <? key y) eqn:E.
    + constructor; [now apply IH|].
      apply Z.ltb_lt in E.
      rewrite Forall_forall in *. intros z Hz.
      apply list_elem_of_In in Hz.
      apply (Permutation_in _ (insert_desc_perm x l)) in Hz.
      destruct Hz as [<- | Hz]; [lia|].
      apply Hy. now apply list_elem_of_In.
    + apply Z.ltb_ge in E. constructor; [exact Hs|].
      constructor; [exact E|].
      rewrite Forall_forall in *. intros z Hz. specialize (Hy z Hz). lia.
Qed.

Lemma sort_reverse_descending l : descending key (sort_reverse key l).
Proof.
  induction l as [|x l IH]; simpl.
  - constructor.
  - now apply insert_desc_descending.
Qed.

(** Stability: the elements of one key keep their order. *)
Lemma insert_desc_stable k x l :
  filter (fun a => key a = k) (insert_desc key x l)
  = filter (fun a => key a = k) (x :: l).
Proof.
  induction l as [|y l IH]; simpl; [reflexivity|].
  destruct (key x <? key y) eqn:E; [|reflexivity].
  apply Z.ltb_lt in E.
  rewrite filter_cons, IH, !filter_cons.
  repeat case_decide; try reflexivity; lia.
Qed.

Lemma sort_reverse_stable k l :
  filter (fun a => key a = k) (sort_reverse key l)
  = filter (fun a => key a = k) l.
Proof.
  induction l as [|x l IH]; simpl; [reflexivity|].
  rewrite insert_desc_stable, !filter_cons, IH. reflexivity.
Qed.
End Sorting.

(** Sorting pairs by their first component is sorting the second
    components by the key that produced the first. *)
Lemma insert_desc_decorate {A} (key : A -> Z) x l :
  insert_desc fst (key x, x) (map (fun a => (key a, a)) l)
  = map (fun a => (key a, a)) (insert_desc key x l).
Proof.
  induction l as [|y l IH]; simpl; [reflexivity|].
  destruct (key x <? key y); simpl; [now rewrite IH | reflexivity].
Qed.

Lemma sort_reverse_decorate {A} (key : A -> Z) l :
  sort_reverse fst (map (fun a => (key a, a)) l)
  = map (fun a => (key a, a)) (sort_reverse key l).
Proof.
  induction l as [|x l IH]; simpl; [reflexivity|].
  now rewrite IH, insert_desc_decorate.
Qed.

Lemma slice_to_map {A B} (f : A -> B) l k :
  slice_to (map f l) k = map f (slice_to l k).
Proof.
  unfold slice_to, len. rewrite length_map.
  destruct (0 <=? k); symmetry; apply fmap_take.
Qed.

Lemma slice_to_nil {A} k : slice_to (@nil A) k = [].
Proof. unfold slice_to. destruct (0 <=? k); apply take_nil. Qed.

Lemma slice_to_bound {A} (l : list A) k : 0 <= k -> len (slice_to l k) <= k.
Proof.
  intros Hk. unfold slice_to, len.
  destruct (Z.leb_spec 0 k); [|lia].
  rewrite length_take. lia.
Qed.

Lemma slice_to_sublist {A} (l : list A) k x : x ∈ slice_to l k -> x ∈ l.
Proof.
  unfold slice_to. destruct (0 <=? k); intros H;
    apply list_elem_of_lookup in H as [i H];
    apply lookup_take_Some in H as [H _];
    apply list_elem_of_lookup; eauto.
Qed.

(* ================================================================== *)
(** * Words and the overlap score *)
(* ================================================================== *)

Section Overlap.
Context (rt : Runtime.t).

Lemma shared_words_NoDup query doc_text :
  NoDup (shared_words rt query doc_text).
Proof. apply NoDup_remove_dups. Qed.

Lemma elem_of_shared_words w query doc_text :
  w ∈ shared_words rt query doc_text
  <-> w ∈ word_list rt query /\ w ∈ word_list rt doc_text.
Proof.
  unfold shared_words. rewrite elem_of_remove_dups, list_elem_of_filter.
  tauto.
Qed.

Lemma elem_of_words w s : w ∈ words rt s <-> w ∈ word_list rt s.
Proof. unfold words, word_list. apply elem_of_list_to_set. Qed.

Lemma overlap_lexical query doc_text :
  Processor.overlap rt (words rt query) doc_text
  = lexical_overlap rt query doc_text.
Proof.
  unfold Processor.overlap, lexical_overlap, len. f_equal.
  unfold size, set_size. simpl. apply Permutation_length.
  apply NoDup_Permutation.
  - apply NoDup_elements.
  - apply shared_words_NoDup.
  - intros w. rewrite elem_of_elements, elem_of_intersection,
      !elem_of_words, elem_of_shared_words. reflexivity.
Qed.

Lemma overlap_nonneg qw doc_text : 0 <= Processor.overlap rt qw doc_text.
Proof. unfold Processor.overlap. lia. Qed.

Lemma lower_nil : lower rt [] = [].
Proof. reflexivity. Qed.

Lemma overlap_empty_text qw : Processor.overlap rt qw [] = 0.
Proof.
  unfold Processor.overlap, words. rewrite lower_nil. simpl.
  rewrite (right_absorb_L ∅ (∩)). reflexivity.
Qed.
End Overlap.

(* ================================================================== *)
(** * Retrieval *)
(* ================================================================== *)

(** Unfolds the monad's operations so that a computation steps. *)
Ltac run :=
  cbv [bind ret raise lift attr when logger try_except].

Section Retrieval.
Context (rt : Runtime.t) (settings : Settings.t).

(** The scoring loop over documents of the data model appends, in corpus
    order, the documents of positive score. *)
Lemma score_documents_texts query docs texts scored_docs :
  Forall2 has_text docs texts ->
  Processor.score_documents rt (words rt query) docs scored_docs
  = Ok (scored_docs
        ++ map (fun t => (Processor.overlap rt (words rt query) t, t))
             (filter (fun t => 0 < Processor.overlap rt (words rt query) t)
                texts)).
Proof.
  intros H. revert scored_docs.
  induction H as [|doc text docs texts Hd _ IH]; intros scored_docs; simpl.
  - now rewrite app_nil_r.
  - unfold has_text in Hd. rewrite Hd. rewrite IH. rewrite filter_cons.
          destruct (Z.gtb_spec (Processor.overlap rt (words rt query) text) 0);
      case_decide; try lia.
    + now rewrite <- app_assoc.
    + reflexivity.
Qed.

Lemma retrieve_context_ranking self query docs texts step w :
  Settings.enable_retrieval settings = true ->
  Processor.knowledge_base self = Some docs ->
  Processor.process_step self = Some step ->
  docs <> [] ->
  Forall2 has_text docs texts ->
  snd (Processor._retrieve_context rt settings self query w)
  = Ok (slice_to (ranking rt query texts) (Settings.top_k settings)).
Proof.
  intros He Hk Hs Hne Ht. unfold Processor._retrieve_context.
  rewrite He, Hk, Hs. run.
  destruct docs as [|doc docs]; [congruence|].
  rewrite (score_documents_texts query _ texts [] Ht). simpl.
  rewrite sort_reverse_decorate, slice_to_map, map_map. simpl.
  now rewrite map_id.
Qed.

Lemma retrieve_context_off self query w :
  Settings.enable_retrieval settings = false ->
  Processor._retrieve_context rt settings self query w = (w, Ok []).
Proof. intros H. unfold Processor._retrieve_context. now rewrite H. Qed.

Lemma retrieve_context_no_docs self query w :
  Processor.knowledge_base self = Some [] ->
  Processor._retrieve_context rt settings self query w = (w, Ok []).
Proof.
  intros H. unfold Processor._retrieve_context. rewrite H.
  now destruct (Settings.enable_retrieval settings).
Qed.

(** The answer of [_retrieve_context] does not depend on the world. *)
Lemma retrieve_context_world self query w w' :
  snd (Processor._retrieve_context rt settings self query w)
  = snd (Processor._retrieve_context rt settings self query w').
Proof.
  unfold Processor._retrieve_context.
  destruct (Settings.enable_retrieval settings); [|reflexivity].
  destruct (Processor.knowledge_base self) as [[|doc docs]|];
    try reflexivity.
  run.
  destruct (Processor.score_documents rt _ (doc :: docs) []);
    [|reflexivity].
  destruct (Processor.process_step self); reflexivity.
Qed.

(** It changes nothing but the log. *)
Lemma retrieve_context_calls self query w :
  World.llm_calls (fst (Processor._retrieve_context rt settings self query w))
  = World.llm_calls w.
Proof.
  unfold Processor._retrieve_context.
  destruct (Settings.enable_retrieval settings); [|reflexivity].
  destruct (Processor.knowledge_base self) as [[|doc docs]|];
    try reflexivity.
  run.
  destruct (Processor.score_documents rt _ (doc :: docs) []);
    [|reflexivity].
  destruct (Processor.process_step self); reflexivity.
Qed.
End Retrieval.

(* ================================================================== *)
(** * Claims on retrieval *)
(* ================================================================== *)

(** C1 (as amended).  With retrieval enabled and a non-empty corpus of
    documents of the data model, [_retrieve_context] returns the first
    [top_k] entries of a ranking [ranked] of the texts: [ranked] holds
    exactly the documents of positive overlap score, in descending order of
    score, documents of equal score in corpus order.  When [top_k] is not
    negative the result has at most [top_k] entries, and no entry has score
    zero.  For four documents scoring 3, 1, 3, 0 and [top_k = 2] the result
    is the first and the third text. *)
Theorem retrieve_context_ranks_top_k
    rt settings self docs texts step query w :
  Settings.enable_retrieval settings = true ->
  Processor.knowledge_base self = Some docs ->
  Processor.process_step self = Some step ->
  docs <> [] ->
  Forall2 has_text docs texts ->
  let score := Processor.overlap rt (words rt query) in
  let top_k := Settings.top_k settings in
  exists ranked,
    snd (Processor._retrieve_context rt settings self query w)
    = Ok (slice_to ranked top_k)
    /\ ranked ≡ₚ filter (fun t => 0 < score t) texts
    /\ descending score ranked
    /\ (forall k, 0 < k ->
          filter (fun t => score t = k) ranked
          = filter (fun t => score t = k) texts)
    /\ (0 <= top_k -> len (slice_to ranked top_k) <= top_k)
    /\ (forall t, t ∈ slice_to ranked top_k -> 0 < score t)
    /\ (forall t1 t2 t3 t4,
          texts = [t1; t2; t3; t4] ->
          score t1 = 3 -> score t2 = 1 -> score t3 = 3 -> score t4 = 0 ->
          top_k = 2 ->
          slice_to ranked top_k = [t1; t3]).
Proof.
  intros He Hk Hs Hne Ht score top_k.
  exists (ranking rt query texts).
  split; [now apply (retrieve_context_ranking rt settings self query docs texts step)|].
  assert (Hperm : ranking rt query texts ≡ₚ filter (fun t => 0 < score t) texts)
    by apply sort_reverse_perm.
  split; [exact Hperm|].
  split; [apply sort_reverse_descending|].
  split.
  { intros k Hpos. unfold ranking. rewrite sort_reverse_stable.
    fold score. rewrite list_filter_filter. apply list_filter_iff.
    intros t. lia. }
  split; [apply slice_to_bound|].
  split.
  { intros t Hin. apply slice_to_sublist in Hin. rewrite Hperm in Hin.
    now apply list_elem_of_filter in Hin as [Hin _]. }
  intros t1 t2 t3 t4 -> H1 H2 H3 H4 ->.
  unfold ranking. cbv zeta. fold score. clearbody score.
  rewrite !filter_cons, filter_nil.
  repeat case_decide; try lia.
  unfold sort_reverse. simpl. rewrite H2, H3. simpl.
  rewrite H1, H3. reflexivity.
Qed.

(** The instance of C1 on the example corpus: scores 3, 1, 3, 0. *)
Lemma retrieve_context_ranks_top_k_witness :
  snd (Processor._retrieve_context Demo.rt (Demo.rag 2)
         (Demo.processor SYSTEM_RAG_PROMPT Demo.corpus) Demo.query World.init)
  = Ok [lit Demo.text1; lit Demo.text3].
Proof.
  destruct (retrieve_context_ranks_top_k Demo.rt (Demo.rag 2)
              (Demo.processor SYSTEM_RAG_PROMPT Demo.corpus) Demo.corpus
              (map lit [Demo.text1; Demo.text2; Demo.text3; Demo.text4])
              (lit "2_processor") Demo.query World.init)
    as (ranked & Hr & _ & _ & _ & _ & _ & Hex).
  - reflexivity.
  - reflexivity.
  - reflexivity.
  - discriminate.
  - repeat constructor.
  - rewrite Hr. f_equal.
    apply (Hex _ _ _ _ eq_refl); vm_compute; reflexivity.
Defined.

(** C1 as stated fails for a negative [top_k]: the slice then drops
    documents from the end of the ranking, and what remains is longer than
    [top_k]. *)
Lemma retrieve_context_negative_top_k :
  snd (Processor._retrieve_context Demo.rt (Demo.rag (-1))
         (Demo.processor SYSTEM_RAG_PROMPT Demo.corpus) Demo.query World.init)
  = Ok [lit Demo.text1; lit Demo.text3]
  /\ ~ len [lit Demo.text1; lit Demo.text3] <= Settings.top_k (Demo.rag (-1)).
Proof. split; [vm_compute; reflexivity | unfold len; simpl; lia]. Qed.

(** The words [split] yields are not empty and hold no whitespace. *)
Lemma split_from_words word s :
  Forall (fun c => isspace c = false) word ->
  Forall (fun w => w <> [] /\ Forall (fun c => isspace c = false) w)
    (split_from word s).
Proof.
  revert word. induction s as [|c s IH]; intros word Hw; simpl.
  - destruct word as [|d word]; constructor; [|constructor].
    split.
    + intros E. apply (f_equal (@length _)) in E.
      rewrite length_rev in E. discriminate.
    + apply Forall_rev. exact Hw.
  - destruct (isspace c) eqn:E.
    + destruct word as [|d word]; [apply IH; constructor|].
      constructor; [|apply IH; constructor].
      split.
      * intros E'. apply (f_equal (@length _)) in E'.
        rewrite length_rev in E'. discriminate.
      * apply Forall_rev. exact Hw.
    + apply IH. now constructor.
Qed.

(** C2.  The score [_retrieve_context] gives a document is the number of
    distinct words that the query and the document's text share, the words
    of a string being those of its lower-cased form split on whitespace:
    the shared words are listed without repetition, each is a word of both
    strings, not empty and free of whitespace, and the scoring loop records
    their number with the text when it is positive. *)
Theorem overlap_counts_shared_words
    (rt : Runtime.t) (query doc_text : str) (fields : gmap str pyobj)
    (rest : list pyobj) (scored_docs : list (Z * str)) :
  let count := lexical_overlap rt query doc_text in
  Processor.overlap rt (words rt query) doc_text = count
  /\ NoDup (shared_words rt query doc_text)
  /\ (forall w, w ∈ shared_words rt query doc_text
                <-> w ∈ split (lower rt query) /\ w ∈ split (lower rt doc_text))
  /\ (forall w, w ∈ shared_words rt query doc_text ->
                w <> [] /\ Forall (fun c => isspace c = false) w)
  /\ Processor.score_documents rt (words rt query)
       (PyDict (<[lit "text" := PyStr doc_text]> fields) :: rest) scored_docs
     = Processor.score_documents rt (words rt query) rest
         (if count >? 0 then scored_docs ++ [(count, doc_text)]
          else scored_docs).
Proof.
  intros count.
  split; [apply overlap_lexical|].
  split; [apply shared_words_NoDup|].
  split; [intros w; apply elem_of_shared_words|].
  split.
  { intros w Hw. apply elem_of_shared_words in Hw as [Hw _].
    pose proof (split_from_words [] (lower rt query) (Forall_nil_2 _)) as Hall.
    rewrite Forall_forall in Hall. now apply Hall. }
  simpl. rewrite lookup_insert_eq, overlap_lexical. reflexivity.
Qed.

(** C7.  With retrieval switched off, or with an empty knowledge base,
    [_retrieve_context] returns the empty list, whatever the query and the
    rest of the processor hold, and leaves the world as it was. *)
Theorem retrieve_context_direct_mode rt settings self query w :
  Settings.enable_retrieval settings = false
  \/ Processor.knowledge_base self = Some [] ->
  Processor._retrieve_context rt settings self query w = (w, Ok []).
Proof.
  intros [H | H].
  - now apply retrieve_context_off.
  - now apply retrieve_context_no_docs.
Qed.

Lemma retrieve_context_direct_mode_witness :
  Processor._retrieve_context Demo.rt Settings.default
    (Demo.processor SYSTEM_PROMPT Demo.corpus) Demo.query World.init
  = (World.init, Ok [])
  /\ Processor._retrieve_context Demo.rt (Demo.rag 3)
       (Demo.processor SYSTEM_RAG_PROMPT []) Demo.query World.init
     = (World.init, Ok []).
Proof.
  split.
  - apply retrieve_context_direct_mode. left. reflexivity.
  - apply retrieve_context_direct_mode. right. reflexivity.
Defined.

Section MissingText.
Context (rt : Runtime.t) (settings : Settings.t).

Lemma score_documents_skip (qw : gset str) (fields : gmap str pyobj)
    (rest : list pyobj) (scored_docs : list (Z * str)) :
  fields !! lit "text" = None ->
  Processor.score_documents rt qw (PyDict fields :: rest) scored_docs
  = Processor.score_documents rt qw rest scored_docs.
Proof.
  intros H. simpl. rewrite H, overlap_empty_text. reflexivity.
Qed.

Lemma score_documents_remove (qw : gset str) (fields : gmap str pyobj)
    (before after : list pyobj) (scored_docs : list (Z * str)) :
  fields !! lit "text" = None ->
  Processor.score_documents rt qw (before ++ PyDict fields :: after)
    scored_docs
  = Processor.score_documents rt qw (before ++ after) scored_docs.
Proof.
  intros H. revert scored_docs.
  induction before as [|doc before IH]; intros scored_docs.
  - now apply score_documents_skip.
  - simpl. destruct (py_get doc _ _) as [[]|]; try reflexivity. apply IH.
Qed.

Lemma score_documents_scored qw docs scored_docs result :
  Processor.score_documents rt qw docs scored_docs = Ok result ->
  Forall (scored rt qw) scored_docs -> Forall (scored rt qw) result.
Proof.
  revert scored_docs.
  induction docs as [|doc docs IH]; intros scored_docs; simpl.
  - now intros [= <-].
  - destruct (py_get doc _ _) as [[]|]; try discriminate.
    intros H Hacc. apply (IH _ H).
    destruct (Z.gtb_spec (Processor.overlap rt qw s) 0); [|exact Hacc].
    apply Forall_app. split; [exact Hacc|].
    constructor; [|constructor]. split; simpl; [lia | reflexivity].
Qed.

Lemma retrieve_context_positive self query w result :
  snd (Processor._retrieve_context rt settings self query w) = Ok result ->
  forall t, t ∈ result -> 0 < Processor.overlap rt (words rt query) t.
Proof.
  unfold Processor._retrieve_context.
  destruct (Settings.enable_retrieval settings); simpl;
    [|intros [= <-] t Ht; inversion Ht].
  destruct (Processor.knowledge_base self) as [[|doc docs]|]; run;
    try discriminate; [intros [= <-] t Ht; inversion Ht|].
  destruct (Processor.score_documents rt _ (doc :: docs) []) as [found|] eqn:E;
    [|discriminate].
  destruct (Processor.process_step self); [|discriminate].
  simpl. intros [= <-] t Ht.
  apply list_elem_of_fmap in Ht as ([k t'] & -> & Ht).
  apply slice_to_sublist in Ht.
  rewrite (sort_reverse_perm fst found) in Ht.
  pose proof (score_documents_scored _ _ _ _ E (Forall_nil_2 _)) as Hall.
  rewrite Forall_forall in Hall. destruct (Hall _ Ht) as [Hpos Heq].
  simpl in *. lia.
Qed.
End MissingText.

(** C10.  A document without a [text] field is read as one with the empty
    text; its score is zero for every query; [_retrieve_context] answers
    as it does for the corpus without the document, raising nothing on its
    account (a corpus of that document alone yields the empty list), and the
    empty text is never among the results. *)
Theorem retrieve_context_missing_text
    (rt : Runtime.t) (settings : Settings.t) (self : Processor.t)
    (fields : gmap str pyobj) (before after : list pyobj)
    (step query : str) (w : World.t) :
  fields !! lit "text" = None ->
  Processor.process_step self = Some step ->
  let doc := PyDict fields in
  let retrieve docs :=
    snd (Processor._retrieve_context rt settings
           (Processor.set_knowledge_base self docs) query w) in
  has_text doc []
  /\ (forall q, Processor.overlap rt (words rt q) [] = 0)
  /\ retrieve (before ++ doc :: after) = retrieve (before ++ after)
  /\ retrieve [doc] = Ok []
  /\ (forall result, retrieve (before ++ doc :: after) = Ok result ->
                     [] ∉ result).
Proof.
  intros Hf Hs doc retrieve.
  assert (Hremove : forall l r, retrieve (l ++ doc :: r) = retrieve (l ++ r)).
  { intros l r. unfold retrieve, Processor._retrieve_context.
    destruct (Settings.enable_retrieval settings); [|reflexivity].
    simpl. rewrite Hs. run.
    destruct (l ++ doc :: r) as [|d ds] eqn:E;
      [now destruct l|]. rewrite <- E.
    unfold doc. rewrite (score_documents_remove rt _ _ l r [] Hf).
    destruct (l ++ r) as [|d' ds']; [|reflexivity].
    simpl. now rewrite slice_to_nil. }
  split; [unfold has_text, doc; simpl; now rewrite Hf|].
  split; [intros q; apply overlap_empty_text|].
  split; [apply Hremove|].
  split.
  { transitivity (retrieve []); [exact (Hremove [] [])|]. unfold retrieve.
    now rewrite retrieve_context_no_docs. }
  intros result Hr Hin.
  pose proof (retrieve_context_positive rt settings _ _ _ _ Hr _ Hin) as Hpos.
  rewrite overlap_empty_text in Hpos. lia.
Qed.

Lemma retrieve_context_missing_text_witness :
  snd (Processor._retrieve_context Demo.rt (Demo.rag 2)
         (Demo.processor SYSTEM_RAG_PROMPT
            ([Demo.doc Demo.text1] ++ PyDict ∅ :: [Demo.doc Demo.text3]))
         Demo.query World.init)
  = Ok [lit Demo.text1; lit Demo.text3].
Proof.
  destruct (retrieve_context_missing_text Demo.rt (Demo.rag 2)
              (Demo.processor SYSTEM_RAG_PROMPT []) ∅
              [Demo.doc Demo.text1] [Demo.doc Demo.text3]
              (lit "2_processor") Demo.query World.init)
    as (_ & _ & Heq & _ & _).
  - reflexivity.
  - reflexivity.
  - etransitivity; [exact Heq|]. vm_compute. reflexivity.
Defined.

(* ================================================================== *)
(** * Validation *)
(* ================================================================== *)

Section Validation.
Context (rt : Runtime.t) (settings : Settings.t).

(** What [validate] answers, by cases on the identifier generator and on
    the length of the trimmed query. *)
Lemma validate_result self query w :
  snd (Validator.validate rt settings self query w)
  = match Runtime.ULID_str rt (World.ulids w) with
    | Raise _ => Raise (RuntimeError FailedToGenerateQueryId)
    | Ok query_id =>
        if len (strip query) <? Settings.min_query_length settings
        then Raise (RuntimeError
                      (QueryTooShort (Settings.min_query_length settings)))
        else if len (strip query) >? Settings.max_query_length settings
        then Raise (RuntimeError
                      (QueryTooLong (Settings.max_query_length settings)))
        else UserQuery.new query_id (strip query)
    end.
Proof.
  unfold Validator.validate, new_ulid. run. simpl.
  destruct (Runtime.ULID_str rt (World.ulids w)); simpl; [|reflexivity].
  destruct (len (strip query) <? _); simpl; [reflexivity|].
  destruct (len (strip query) >? _); reflexivity.
Qed.

(** [validate] issues no chat request and does not read the clock. *)
Lemma validate_calls self query w :
  World.llm_calls (fst (Validator.validate rt settings self query w))
  = World.llm_calls w.
Proof.
  unfold Validator.validate, new_ulid. run. simpl.
  destruct (Runtime.ULID_str rt (World.ulids w)); simpl; [|reflexivity].
  destruct (len (strip query) <? _); simpl; [reflexivity|].
  destruct (len (strip query) >? _); reflexivity.
Qed.

(** When [validate] raises, [Pipeline.process] raises the same exception
    in the same world, whatever its processor is. *)
Lemma pipeline_stops_at_validation self query w e :
  let w0 := fst (time rt w) in
  snd (Validator.validate rt settings (Pipeline.validator self) query w0)
  = Raise e ->
  Pipeline.process rt settings self query w
  = (fst (Validator.validate rt settings (Pipeline.validator self) query w0),
     Raise e).
Proof.
  intros w0 H. unfold Pipeline.process. run.
  subst w0. unfold time in *. simpl in *.
  destruct (Validator.validate rt settings (Pipeline.validator self) query _)
    as [w1 [v|e']]; simpl in *; congruence.
Qed.
End Validation.

(** C4 (as amended).  Let the trimmed query be shorter than
    [min_query_length] or longer than [max_query_length].  If the
    identifier was generated, [validate] raises the too-short error when
    the text is shorter than the minimum, and the too-long error otherwise;
    if it was not, [validate] raises the error of the generation.
    In every case [Pipeline.process] raises what [validate] raises, issues
    no chat request, and behaves the same whatever its processor is: the
    processor is not called. *)
Theorem validate_rejects_out_of_range
    (rt : Runtime.t) (settings : Settings.t) (pipeline : Pipeline.t)
    (query : str) (w : World.t) :
  let n := len (strip query) in
  let lo := Settings.min_query_length settings in
  let hi := Settings.max_query_length settings in
  let validator := Pipeline.validator pipeline in
  n < lo \/ hi < n ->
  (forall query_id,
      Runtime.ULID_str rt (World.ulids w) = Ok query_id ->
      snd (Validator.validate rt settings validator query w)
      = Raise (RuntimeError
                 (if n <? lo then QueryTooShort lo else QueryTooLong hi)))
  /\ (forall e,
        Runtime.ULID_str rt (World.ulids w) = Raise e ->
        snd (Validator.validate rt settings validator query w)
        = Raise (RuntimeError FailedToGenerateQueryId))
  /\ (exists e,
        snd (Pipeline.process rt settings pipeline query w) = Raise e
        /\ snd (Validator.validate rt settings validator query (fst (time rt w)))
           = Raise e)
  /\ World.llm_calls (fst (Pipeline.process rt settings pipeline query w))
     = World.llm_calls w
  /\ (forall processor',
        Pipeline.process rt settings
          (Pipeline.mk validator processor' (Pipeline.process_step pipeline))
          query w
        = Pipeline.process rt settings pipeline query w).
Proof.
  intros n lo hi validator Hn.
  assert (Hraise : forall w', exists e,
             snd (Validator.validate rt settings validator query w') = Raise e).
  { intros w'. rewrite validate_result. fold n lo hi.
    destruct (Runtime.ULID_str rt (World.ulids w')); [|eauto].
    destruct (Z.ltb_spec n lo); [eauto|].
    destruct (Z.gtb_spec n hi); [eauto | lia]. }
  split.
  { intros query_id Hid. rewrite validate_result, Hid. fold n lo hi.
    destruct (Z.ltb_spec n lo); [reflexivity|].
    destruct (Z.gtb_spec n hi); [reflexivity | lia]. }
  split.
  { intros e He. now rewrite validate_result, He. }
  destruct (Hraise (fst (time rt w))) as [e He].
  pose proof (pipeline_stops_at_validation rt settings pipeline query w e He)
    as Hp.
  split; [exists e; now rewrite Hp|].
  split; [rewrite Hp; simpl; now rewrite validate_calls|].
  intros processor'. rewrite Hp.
  now apply (pipeline_stops_at_validation rt settings
               (Pipeline.mk validator processor' _) query w e).
Qed.

Lemma validate_rejects_out_of_range_witness :
  snd (Validator.validate Demo.rt (Demo.bounds 3 5) Demo.validator
         (lit "  ab ") World.init)
  = Raise (RuntimeError (QueryTooShort 3))
  /\ snd (Validator.validate Demo.rt (Demo.bounds 3 5) Demo.validator
            (lit "abcdefg") World.init)
     = Raise (RuntimeError (QueryTooLong 5))
  /\ World.llm_calls
       (fst (Pipeline.process Demo.rt (Demo.bounds 3 5)
               (Demo.pipeline SYSTEM_PROMPT []) (lit "  ab ") World.init))
     = [].
Proof.
  destruct (validate_rejects_out_of_range Demo.rt (Demo.bounds 3 5)
              (Demo.pipeline SYSTEM_PROMPT []) (lit "  ab ") World.init)
    as (Hshort & _ & _ & Hcalls & _); [left; vm_compute; reflexivity|].
  destruct (validate_rejects_out_of_range Demo.rt (Demo.bounds 3 5)
              (Demo.pipeline SYSTEM_PROMPT []) (lit "abcdefg") World.init)
    as (Hlong & _); [right; vm_compute; reflexivity|].
  split; [exact (Hshort _ eq_refl)|].
  split; [exact (Hlong _ eq_refl) | exact Hcalls].
Defined.

(** C4 as stated fails in two ways.  When the identifier cannot be
    generated, [validate] raises that error and not the too-short one; and
    when the bounds cross, a text longer than the maximum and shorter than
    the minimum gets the too-short error, not the too-long one. *)
Lemma validate_out_of_range_other_error :
  (len (strip (lit "ab")) < Settings.min_query_length Settings.default
   /\ snd (Validator.validate Demo.rt_no_ulid Settings.default Demo.validator
             (lit "ab") World.init)
      = Raise (RuntimeError FailedToGenerateQueryId))
  /\ (len (strip (lit "abcdefg")) > Settings.max_query_length (Demo.bounds 10 5)
      /\ snd (Validator.validate Demo.rt (Demo.bounds 10 5) Demo.validator
                (lit "abcdefg") World.init)
         = Raise (RuntimeError (QueryTooShort 10))).
Proof. repeat split; vm_compute; reflexivity. Qed.

(** C5 (as amended).  If the identifier was generated, the trimmed query
    has a length within the bounds and is not empty (as it is whenever
    [min_query_length] is at least 1), then [validate] returns the
    [UserQuery] of that identifier and of exactly the trimmed text. *)
Theorem validate_accepts_in_range
    (rt : Runtime.t) (settings : Settings.t) (self : Validator.t)
    (query query_id : str) (w : World.t) :
  Runtime.ULID_str rt (World.ulids w) = Ok query_id ->
  Settings.min_query_length settings <= len (strip query)
    <= Settings.max_query_length settings ->
  0 < len (strip query) ->
  snd (Validator.validate rt settings self query w)
  = Ok (UserQuery.mk query_id (strip query)).
Proof.
  intros Hid [Hlo Hhi] Hpos. rewrite validate_result, Hid.
  destruct (Z.ltb_spec (len (strip query)) (Settings.min_query_length settings));
    [lia|].
  destruct (Z.gtb_spec (len (strip query)) (Settings.max_query_length settings));
    [lia|].
  pose proof (strip_idem query) as Hidem.
  unfold UserQuery.new.
  destruct (strip query) as [|c text]; [discriminate|].
  now rewrite Hidem.
Qed.

Lemma validate_accepts_in_range_witness :
  snd (Validator.validate Demo.rt Settings.default Demo.validator
         (lit "  How do I reset my password? ") World.init)
  = Ok (UserQuery.mk (lit "01JBX5Z3NDEKTSV4RRFFQ69G50")
          (lit "How do I reset my password?")).
Proof.
  apply (validate_accepts_in_range Demo.rt Settings.default Demo.validator
           (lit "  How do I reset my password? ")
           (lit "01JBX5Z3NDEKTSV4RRFFQ69G50") World.init).
  - reflexivity.
  - split; vm_compute; discriminate.
  - vm_compute. reflexivity.
Defined.

(** C5 as stated fails in two ways.  With a minimum of 0 a blank query has
    a trimmed length within the bounds, and the [UserQuery] model refuses
    it; and a query of any length is refused when the identifier cannot be
    generated. *)
Lemma validate_in_range_refused :
  (Settings.min_query_length (Demo.bounds 0 2000) <= len (strip (lit "   "))
     <= Settings.max_query_length (Demo.bounds 0 2000)
   /\ snd (Validator.validate Demo.rt (Demo.bounds 0 2000) Demo.validator
             (lit "   ") World.init)
      = Raise (ValidationError QueryCannotBeEmpty))
  /\ (Settings.min_query_length Settings.default <= len (strip (lit "hello"))
        <= Settings.max_query_length Settings.default
      /\ snd (Validator.validate Demo.rt_no_ulid Settings.default
                Demo.validator (lit "hello") World.init)
         = Raise (RuntimeError FailedToGenerateQueryId)).
Proof.
  repeat split; vm_compute; try reflexivity; discriminate.
Qed.

(* ================================================================== *)
(** * The processor *)
(* ================================================================== *)

Section Process.
Context (rt : Runtime.t) (settings : Settings.t).

Opaque lit.

(** Runs [process] up to the end of retrieval: [w1] is the world and [r]
    the outcome of [_retrieve_context]. *)
Ltac after_retrieval self w w1 r Hw Hc :=
  unfold Processor.process; run; simpl;
  match goal with
  | |- context [Processor._retrieve_context rt settings self ?q ?w0] =>
      pose proof (retrieve_context_world rt settings self q w0 w) as Hw;
      pose proof (retrieve_context_calls rt settings self q w0) as Hc;
      destruct (Processor._retrieve_context rt settings self q w0)
        as [w1 r]
  end;
  simpl in Hw, Hc.

(** Splits on the client's answer, on the text taken from it and on
    whether that text is empty. *)
Ltac branches :=
  repeat first
    [ progress simpl
    | match goal with
      | |- context [match ?client ?n ?req with Ok _ => _ | Raise _ => _ end] =>
          destruct (client n req) eqn:?
      | |- context [Processor.message_text ?x] =>
          destruct (Processor.message_text x) eqn:?
      | |- context [bool_decide (?x = [])] =>
          destruct (bool_decide_reflect (x = []))
      | |- context [is_parse_error ?e] =>
          destruct (is_parse_error e) eqn:?
      end ].

(** The request [process] issues for a retrieved context. *)
Lemma process_request client template step docs item w context_docs :
  let self := Processor.mk (Some client) (Some template) (Some step) docs in
  snd (Processor._retrieve_context rt settings self (UserQuery.query item) w)
  = Ok context_docs ->
  World.llm_calls (fst (Processor.process rt settings self item w))
  = World.llm_calls w
    ++ [ChatRequest.mk (Settings.model_name settings)
          (PromptTemplate.prompt template)
          match context_docs with
          | [] => UserQuery.query item
          | _ =>
              lit "Context information:" ++ nl
              ++ join (nl ++ nl) context_docs ++ nl ++ nl
              ++ lit "Question: " ++ UserQuery.query item ++ nl ++ nl
              ++ lit "Answer based on the context above. If the context doesn't contain relevant information, say so."
          end
          (Settings.temperature settings) (Settings.max_tokens settings)].
Proof.
  intros self Hctx.
  after_retrieval self w w1 r Hw Hc.
  rewrite Hctx in Hw. subst r.
  destruct context_docs as [|doc context_docs]; simpl; branches.
  all: now rewrite Hc.
Qed.

(** No request is issued when retrieval raises. *)
Lemma process_no_request self item w e :
  snd (Processor._retrieve_context rt settings self (UserQuery.query item) w)
  = Raise e ->
  World.llm_calls (fst (Processor.process rt settings self item w))
  = World.llm_calls w.
Proof.
  intros Hctx. unfold Processor.process. run.
  destruct (Processor.process_step self) as [step|]; [|reflexivity].
  simpl.
  match goal with
  | |- context [Processor._retrieve_context rt settings self ?q ?w0] =>
      pose proof (retrieve_context_world rt settings self q w0 w) as Hw;
      pose proof (retrieve_context_calls rt settings self q w0) as Hc;
      destruct (Processor._retrieve_context rt settings self q w0)
        as [w1 r]
  end.
  simpl in Hw, Hc. rewrite Hctx in Hw. subst r. exact Hc.
Qed.

Lemma message_text_raise response e :
  Processor.message_text response = Raise e -> is_parse_error e = true.
Proof.
  unfold Processor.message_text.
  destruct (ChatCompletion.choices response) as [|choice rest];
    [now intros [= <-]|].
  destruct (ChatCompletion.content _); [discriminate | now intros [= <-]].
Qed.

Lemma message_text_empty response :
  empty_response response ->
  match Processor.message_text response with
  | Ok answer => answer = []
  | Raise _ => True
  end.
Proof.
  unfold empty_response, Processor.message_text.
  destruct (ChatCompletion.choices response) as [|choice rest]; [easy|].
  now destruct (ChatCompletion.content _).
Qed.

Lemma message_text_stripped response answer :
  Processor.message_text response = Ok answer -> strip answer = answer.
Proof.
  unfold Processor.message_text.
  destruct (ChatCompletion.choices response) as [|choice rest];
    [discriminate|].
  destruct (ChatCompletion.content _); [|discriminate].
  intros [= <-]. apply strip_idem.
Qed.

(** The answer of a result is a non-empty trimmed text. *)
Lemma process_answer self item w result :
  snd (Processor.process rt settings self item w) = Ok result ->
  ProcessorResult.answer result <> []
  /\ strip (ProcessorResult.answer result) = ProcessorResult.answer result.
Proof.
  unfold Processor.process. run.
  destruct (Processor.process_step self) as [step|]; [|discriminate].
  destruct (Processor._retrieve_context rt settings self _ _)
    as [w1 [context_docs|]]; [|discriminate].
  destruct (Processor.client self) as [client|],
           (Processor.prompt_template self) as [template|];
    destruct context_docs as [|doc context_docs]; simpl;
    try discriminate; branches; try discriminate;
    intros [= <-]; simpl; eauto using message_text_stripped.
Qed.

Lemma snoc_neq {A} (l : list A) x : l <> l ++ [x].
Proof.
  intros E. apply (f_equal (@length A)) in E.
  rewrite length_app in E. simpl in E. lia.
Qed.

(** A response without answer text makes [process] raise the parse
    error. *)
Lemma process_empty_response client template step docs item w req response :
  let self := Processor.mk (Some client) template (Some step) docs in
  World.llm_calls (fst (Processor.process rt settings self item w))
  = World.llm_calls w ++ [req] ->
  client (length (World.llm_calls w)) req = Ok response ->
  empty_response response ->
  snd (Processor.process rt settings self item w)
  = Raise (RuntimeError ErrorParsingLLMResponse).
Proof.
  intros self. after_retrieval self w w1 r Hw Hc. clear Hw.
  intros Hcalls Hreply Hempty.
  apply message_text_empty in Hempty.
  destruct r as [context_docs|e];
    [|simpl in Hcalls; rewrite Hc in Hcalls; now apply snoc_neq in Hcalls].
  destruct template as [template|];
    destruct context_docs as [|doc context_docs]; simpl in *.
  3,4: rewrite Hc in Hcalls; now apply snoc_neq in Hcalls.
  all: revert Hcalls; branches; rewrite Hc; intros Hcalls;
    apply app_inj_tail in Hcalls as [_ <-]; rewrite Hc in *;
    try congruence.
  all: match goal with
       | H : _ = Ok ?a, H' : Processor.message_text ?a = _ |- _ =>
           rewrite Hreply in H; injection H as <-
       end.
  all: match goal with
       | H : Processor.message_text _ = _ |- _ =>
           first [ rewrite H in Hempty; congruence
                 | apply message_text_raise in H; congruence ]
       end.
Qed.

Transparent lit.
End Process.

Lemma join_contains sep parts entry :
  entry ∈ parts -> exists pre post, join sep parts = pre ++ entry ++ post.
Proof.
  induction parts as [|p parts IH]; intros Hin; [inversion Hin|].
  apply elem_of_cons in Hin as [-> | Hin].
  - destruct parts as [|p' parts].
    + exists [], []. simpl. now rewrite app_nil_r.
    + exists [], (sep ++ join sep (p' :: parts)). reflexivity.
  - destruct (IH Hin) as (pre & post & E).
    destruct parts as [|p' parts]; [inversion Hin|].
    exists (p ++ sep ++ pre), post.
    change (join sep (p :: p' :: parts)) with (p ++ sep ++ join sep (p' :: parts)).
    rewrite E. now rewrite <- !app_assoc.
Qed.

(** C3.  [process] issues one chat request, whose system message is the
    prompt of the template.  When the retrieved context is empty its user
    message is the query text itself.  Otherwise its user message is the
    heading, the context entries joined by a blank line, a blank line, the
    question line with the query text, a blank line, and the instruction to
    answer from the context and to say so if it holds nothing relevant;
    every context entry occurs in the joined block. *)
Theorem process_user_message
    (rt : Runtime.t) (settings : Settings.t) (client : OpenAI)
    (template : PromptTemplate.t) (step : str) (docs : option (list pyobj))
    (item : UserQuery.t) (w : World.t) (context_docs : list str) :
  let self := Processor.mk (Some client) (Some template) (Some step) docs in
  let query := UserQuery.query item in
  snd (Processor._retrieve_context rt settings self query w)
  = Ok context_docs ->
  exists request,
    World.llm_calls (fst (Processor.process rt settings self item w))
    = World.llm_calls w ++ [request]
    /\ ChatRequest.system_content request = PromptTemplate.prompt template
    /\ (context_docs = [] -> ChatRequest.user_content request = query)
    /\ (context_docs <> [] ->
        ChatRequest.user_content request
        = lit "Context information:" ++ nl
          ++ join (nl ++ nl) context_docs
          ++ nl ++ nl ++ lit "Question: " ++ query
          ++ nl ++ nl
          ++ lit "Answer based on the context above. If the context doesn't contain relevant information, say so."
        /\ forall entry, entry ∈ context_docs ->
             exists pre post,
               join (nl ++ nl) context_docs = pre ++ entry ++ post).
Proof.
  intros self query Hctx.
  eexists. split.
  { apply (process_request rt settings client template step docs item w
             context_docs Hctx). }
  simpl. split; [reflexivity|].
  split; [now intros ->|].
  intros Hne. destruct context_docs as [|doc context_docs]; [congruence|].
  split; [reflexivity|]. intros entry. apply join_contains.
Qed.

Lemma process_user_message_witness :
  exists request,
    World.llm_calls
      (fst (Processor.process Demo.rt (Demo.rag 2)
              (Demo.processor SYSTEM_RAG_PROMPT Demo.corpus) Demo.item
              World.init))
    = [request]
    /\ ChatRequest.user_content request
       = lit "Context information:" ++ nl
         ++ lit Demo.text1 ++ nl ++ nl ++ lit Demo.text3
         ++ nl ++ nl ++ lit "Question: Reset my password"
         ++ nl ++ nl
         ++ lit "Answer based on the context above. If the context doesn't contain relevant information, say so.".
Proof.
  destruct (process_user_message Demo.rt (Demo.rag 2)
              (Demo.reply_with (Demo.completion "  Use the reset link. "))
              SYSTEM_RAG_PROMPT (lit "2_processor") (Some Demo.corpus)
              Demo.item World.init [lit Demo.text1; lit Demo.text3])
    as (request & Hcalls & _ & _ & Hrag); [vm_compute; reflexivity|].
  exists request. split; [exact Hcalls|].
  destruct Hrag as [-> _]; [discriminate|]. vm_compute. reflexivity.
Defined.

(** C6.  When the response to the request [process] issued has no choice,
    no content, or a content that is empty once trimmed, [process] raises
    the [RuntimeError] of the parse failure and returns no result; so the
    answer of every result it returns is not empty after trimming. *)
Theorem process_rejects_empty_response
    (rt : Runtime.t) (settings : Settings.t) (client : OpenAI)
    (template : option PromptTemplate.t) (step : str)
    (docs : option (list pyobj)) (item : UserQuery.t) (w : World.t) :
  let self := Processor.mk (Some client) template (Some step) docs in
  let outcome := Processor.process rt settings self item w in
  (forall request response,
      World.llm_calls (fst outcome) = World.llm_calls w ++ [request] ->
      client (length (World.llm_calls w)) request = Ok response ->
      empty_response response ->
      snd outcome = Raise (RuntimeError ErrorParsingLLMResponse))
  /\ (forall result,
        snd outcome = Ok result ->
        strip (ProcessorResult.answer result) <> []).
Proof.
  intros self outcome. split.
  - intros request response. apply process_empty_response.
  - intros result Hr.
    destruct (process_answer rt settings self item w result Hr) as [Hne Hs].
    now rewrite Hs.
Qed.

Lemma process_rejects_empty_response_witness :
  snd (Processor.process Demo.rt Settings.default
         (Demo.processor_with (Demo.reply_with (Demo.completion "   "))
            SYSTEM_PROMPT [])
         Demo.item World.init)
  = Raise (RuntimeError ErrorParsingLLMResponse)
  /\ forall result,
       snd (Processor.process Demo.rt Settings.default
              (Demo.processor SYSTEM_PROMPT []) Demo.item World.init)
       = Ok result ->
       strip (ProcessorResult.answer result) <> [].
Proof.
  split.
  - destruct (process_rejects_empty_response Demo.rt Settings.default
                (Demo.reply_with (Demo.completion "   "))
                (Some SYSTEM_PROMPT) (lit "2_processor") (Some [])
                Demo.item World.init) as [Hempty _].
    apply (Hempty
             (ChatRequest.mk (lit "gpt-4o-mini")
                (PromptTemplate.prompt SYSTEM_PROMPT) Demo.query
                0x1.6666666666666p-1%float 1000)
             (Demo.completion "   ")).
    + vm_compute. reflexivity.
    + reflexivity.
    + vm_compute. reflexivity.
  - apply (process_rejects_empty_response Demo.rt Settings.default
             (Demo.reply_with (Demo.completion "  Use the reset link. "))
             (Some SYSTEM_PROMPT) (lit "2_processor") (Some [])
             Demo.item World.init).
Defined.

(* ================================================================== *)
(** * The pipeline *)
(* ================================================================== *)

Lemma metadata_keys_differ : lit "sources_count" <> lit "has_context".
Proof. vm_compute. discriminate. Qed.

(** C8.  In every result of [Pipeline.process] the metadata hold the
    number of sources under [sources_count] and, under [has_context],
    whether that number is positive, which is the case exactly when there
    is a source. *)
Theorem pipeline_metadata
    (rt : Runtime.t) (settings : Settings.t) (self : Pipeline.t)
    (query : str) (w : World.t) (result : PipelineResult.t) :
  snd (Pipeline.process rt settings self query w) = Ok result ->
  let sources_count := len (PipelineResult.sources result) in
  PipelineResult.metadata result !! lit "sources_count"
  = Some (PyInt sources_count)
  /\ PipelineResult.metadata result !! lit "has_context"
     = Some (PyBool (sources_count >? 0))
  /\ ((sources_count >? 0) = true <-> PipelineResult.sources result <> []).
Proof.
  unfold Pipeline.process. run. unfold time. simpl.
  destruct (Validator.validate rt settings (Pipeline.validator self) query _)
    as [w1 [validated_query|e]]; [|discriminate].
  destruct (Processor.process rt settings (Pipeline.processor self)
              validated_query _) as [w2 [processor_result|e]]; [|discriminate].
  intros [= <-]. simpl.
  split; [apply lookup_insert_eq|].
  split.
  { rewrite lookup_insert_ne by apply metadata_keys_differ.
    apply lookup_insert_eq. }
  unfold len.
  destruct (ProcessorResult.sources_used processor_result); simpl;
    split; intros H; try discriminate; try congruence; reflexivity.
Qed.

Lemma pipeline_metadata_witness :
  exists result,
    snd (Pipeline.process Demo.rt (Demo.rag 2)
           (Demo.pipeline SYSTEM_RAG_PROMPT Demo.corpus)
           (lit "Reset my password") World.init)
    = Ok result
    /\ PipelineResult.sources result = [lit Demo.text1; lit Demo.text3]
    /\ PipelineResult.metadata result !! lit "sources_count" = Some (PyInt 2)
    /\ PipelineResult.metadata result !! lit "has_context"
       = Some (PyBool true).
Proof.
  destruct (snd (Pipeline.process Demo.rt (Demo.rag 2)
                   (Demo.pipeline SYSTEM_RAG_PROMPT Demo.corpus)
                   (lit "Reset my password") World.init))
    as [result|e] eqn:E.
  - exists result. split; [reflexivity|].
    destruct (pipeline_metadata _ _ _ _ _ _ E) as (Hcount & Hctx & _).
    assert (Hs : PipelineResult.sources result
                 = [lit Demo.text1; lit Demo.text3]).
    { vm_compute in E. injection E as <-. vm_compute. reflexivity. }
    rewrite Hs in Hcount, Hctx. split; [exact Hs|]. split; assumption.
  - vm_compute in E. discriminate.
Defined.

(* ================================================================== *)
(** * Loading the knowledge base, and construction *)
(* ================================================================== *)

Section Loading.
Context (rt : Runtime.t) (settings : Settings.t).

(** A missing file: a warning is logged and the collection is empty. *)
Lemma load_knowledge_base_missing self step w :
  Processor.process_step self = Some step ->
  Runtime.open_lines rt (Settings.knowledge_base_path settings)
  = Raise FileNotFoundError ->
  Processor._load_knowledge_base rt settings self w
  = (World.mk (World.logs w ++ [(WARNING, "Knowledge base file not found")])
       (World.llm_calls w) (World.ulids w) (World.clock w),
     Ok []).
Proof.
  intros Hs Ho. unfold Processor._load_knowledge_base. run.
  now rewrite Ho, Hs.
Qed.

(** One line that is no JSON makes the loop raise, whatever was read
    before it. *)
Lemma read_documents_malformed lines docs :
  Exists (fun line => exists e,
              Runtime.json_loads rt (strip line) = Raise e) lines ->
  exists e, Processor.read_documents rt lines docs = Raise e.
Proof.
  intros H. revert docs.
  induction H as [line lines [e He] | line lines _ IH]; intros docs; simpl.
  - rewrite He. eauto.
  - destruct (Runtime.json_loads rt (strip line)); [apply IH | eauto].
Qed.

(** A file with such a line: the load is given up, one record is logged
    and the collection is empty. *)
Lemma load_knowledge_base_malformed self step lines w :
  Processor.process_step self = Some step ->
  Runtime.open_lines rt (Settings.knowledge_base_path settings) = Ok lines ->
  Exists (fun line => exists e,
              Runtime.json_loads rt (strip line) = Raise e) lines ->
  exists record,
    Processor._load_knowledge_base rt settings self w
    = (World.mk (World.logs w ++ [record])
         (World.llm_calls w) (World.ulids w) (World.clock w),
       Ok []).
Proof.
  intros Hs Ho Hbad. unfold Processor._load_knowledge_base. run.
  rewrite Ho, Hs.
  destruct (read_documents_malformed lines [] Hbad) as [e ->].
  destruct e; eauto.
Qed.

(** A file of three lines, the second of which is no JSON: the document
    of the first line is dropped with the rest. *)
Lemma load_knowledge_base_example :
  Processor._load_knowledge_base
    (Demo.runtime Demo.ULID_str
       (Demo.one_file (lit "data/faq.jsonl")
          [Demo.json_line Demo.text1; lit "not json" ++ nl;
           Demo.json_line Demo.text3])
       (Demo.reply_with (Demo.completion "ok")))
    (Demo.rag 3) (Demo.processor SYSTEM_RAG_PROMPT []) World.init
  = (World.mk [(ERROR, "Failed to load knowledge base")] [] 0%nat 0%nat,
     Ok [])
  /\ Processor.read_documents Demo.rt
       [Demo.json_line Demo.text1; Demo.json_line Demo.text3] []
     = Ok [Demo.doc Demo.text1; Demo.doc Demo.text3].
Proof. split; vm_compute; reflexivity. Qed.

(** [__init__] reads [self.process_step] in [_load_system_prompt] before
    the attribute is assigned. *)
Lemma load_system_prompt_unset self w :
  Processor.process_step self = None ->
  Processor._load_system_prompt settings self w = (w, Raise AttributeError).
Proof.
  intros H. unfold Processor._load_system_prompt. run. rewrite H.
  now destruct (Settings.enable_retrieval settings).
Qed.

Lemma processor_init_result w :
  Processor.__init__ rt settings w
  = (w, match Runtime.OpenAI_new rt (Settings.openai_api_key settings) with
        | Ok _ => Raise AttributeError
        | Raise e => Raise e
        end).
Proof.
  unfold Processor.__init__. run.
  destruct (Runtime.OpenAI_new rt _) as [client|e]; [|reflexivity].
  now rewrite load_system_prompt_unset.
Qed.
End Loading.

(** C9.  The processor is never constructed: [Processor.__init__] raises
    the error of the client's construction or, when the client is there,
    the [AttributeError] of [_load_system_prompt] reading
    [self.process_step] before it is assigned; [Pipeline.__init__] raises
    the same.  The knowledge base is not loaded at all, be its file there,
    missing or malformed. *)
Theorem processor_never_constructed
    (rt : Runtime.t) (settings : Settings.t) (w : World.t) :
  let failure {A} : result A :=
    match Runtime.OpenAI_new rt (Settings.openai_api_key settings) with
    | Ok _ => Raise AttributeError
    | Raise e => Raise e
    end in
  snd (Processor.__init__ rt settings w) = failure
  /\ snd (Pipeline.__init__ rt settings w) = failure
  /\ snd (Processor.__init__ Demo.rt (Demo.rag 3) World.init)
     = Raise AttributeError.
Proof.
  intros failure. split; [now rewrite processor_init_result|].
  split; [|reflexivity].
  unfold Pipeline.__init__, Validator.__init__. run.
  rewrite processor_init_result.
  now destruct (Runtime.OpenAI_new rt _).
Qed.

(* ================================================================== *)
(** * Further properties: the query model and the validator *)
(* ================================================================== *)

Lemma user_query_new_ok query_id query :
  strip query <> [] ->
  UserQuery.new query_id query = Ok (UserQuery.mk query_id (strip query)).
Proof.
  intros H. unfold UserQuery.new.
  destruct query as [|c query]; [exfalso; apply H; reflexivity|].
  now destruct (strip (c :: query)).
Qed.

Lemma user_query_new_blank query_id query :
  strip query = [] ->
  UserQuery.new query_id query = Raise (ValidationError QueryCannotBeEmpty).
Proof.
  intros H. unfold UserQuery.new. destruct query; [reflexivity|]. now rewrite H.
Qed.

Lemma user_query_new_inv query_id query u :
  UserQuery.new query_id query = Ok u ->
  strip query <> [] /\ u = UserQuery.mk query_id (strip query).
Proof.
  intros H. destruct (strip query) as [|c text] eqn:E.
  - rewrite user_query_new_blank in H by exact E. discriminate.
  - rewrite user_query_new_ok in H by (rewrite E; discriminate).
    rewrite E in H. injection H as <-. split; [discriminate | reflexivity].
Qed.

(** X1.  The [UserQuery] model refuses exactly the queries that are empty
    once trimmed and otherwise stores the trimmed text; building a model
    again from the fields of one that was built gives the same model. *)
Theorem user_query_model (query_id query : str) :
  (strip query = [] ->
   UserQuery.new query_id query = Raise (ValidationError QueryCannotBeEmpty))
  /\ (strip query <> [] ->
      UserQuery.new query_id query = Ok (UserQuery.mk query_id (strip query)))
  /\ (forall u,
        UserQuery.new query_id query = Ok u ->
        UserQuery.new (UserQuery.query_id u) (UserQuery.query u) = Ok u).
Proof.
  split; [apply user_query_new_blank|].
  split; [apply user_query_new_ok|].
  intros u H. apply user_query_new_inv in H as [Hne ->]. simpl.
  rewrite user_query_new_ok; rewrite strip_idem; [reflexivity | exact Hne].
Qed.

Lemma user_query_model_witness :
  UserQuery.new (lit "id") (lit "   ")
  = Raise (ValidationError QueryCannotBeEmpty)
  /\ UserQuery.new (lit "id") (lit " hi ")
     = Ok (UserQuery.mk (lit "id") (lit "hi"))
  /\ UserQuery.new (lit "id") (lit "hi")
     = Ok (UserQuery.mk (lit "id") (lit "hi")).
Proof.
  destruct (user_query_model (lit "id") (lit "   ")) as (Hblank & _ & _).
  destruct (user_query_model (lit "id") (lit " hi ")) as (_ & Hok & Hagain).
  split; [apply Hblank; reflexivity|].
  assert (H : UserQuery.new (lit "id") (lit " hi ")
              = Ok (UserQuery.mk (lit "id") (lit "hi")))
    by (apply Hok; vm_compute; discriminate).
  split; [exact H | exact (Hagain _ H)].
Defined.

(** X2.  Whatever [validate] returns carries the identifier that was
    generated and the trimmed query; that text is not empty, has no
    whitespace at either end, and its length lies within the configured
    bounds. *)
Theorem validate_returns_bounded_trimmed
    (rt : Runtime.t) (settings : Settings.t) (self : Validator.t)
    (query : str) (w : World.t) (u : UserQuery.t) :
  snd (Validator.validate rt settings self query w) = Ok u ->
  Runtime.ULID_str rt (World.ulids w) = Ok (UserQuery.query_id u)
  /\ UserQuery.query u = strip query
  /\ UserQuery.query u <> []
  /\ strip (UserQuery.query u) = UserQuery.query u
  /\ Settings.min_query_length settings <= len (UserQuery.query u)
     <= Settings.max_query_length settings.
Proof.
  rewrite validate_result.
  destruct (Runtime.ULID_str rt (World.ulids w)) as [query_id|]; [|discriminate].
  destruct (Z.ltb_spec (len (strip query)) (Settings.min_query_length settings));
    [discriminate|].
  destruct (Z.gtb_spec (len (strip query)) (Settings.max_query_length settings));
    [discriminate|].
  intros Hu. apply user_query_new_inv in Hu as [Hne ->]. simpl.
  rewrite !strip_idem in *. repeat split; try assumption; try lia.
Qed.

Lemma validate_returns_bounded_trimmed_witness :
  snd (Validator.validate Demo.rt Settings.default Demo.validator
         (lit "  How do I reset my password? ") World.init)
  = Ok (UserQuery.mk (lit "01JBX5Z3NDEKTSV4RRFFQ69G50")
          (lit "How do I reset my password?"))
  /\ 3 <= len (lit "How do I reset my password?") <= 2000.
Proof.
  assert (H : snd (Validator.validate Demo.rt Settings.default Demo.validator
                     (lit "  How do I reset my password? ") World.init)
              = Ok (UserQuery.mk (lit "01JBX5Z3NDEKTSV4RRFFQ69G50")
                      (lit "How do I reset my password?")))
    by (vm_compute; reflexivity).
  split; [exact H|].
  now destruct (validate_returns_bounded_trimmed _ _ _ _ _ _ H)
    as (_ & _ & _ & _ & Hb).
Defined.

(** X3.  [validate] raises nothing but its own three [RuntimeError]s and
    the [ValidationError] of the model, the latter only for a query that
    is blank while the bounds admit length zero; with a minimum of at
    least 1 every failure is a [RuntimeError]. *)
Theorem validate_errors
    (rt : Runtime.t) (settings : Settings.t) (self : Validator.t)
    (query : str) (w : World.t) (e : exn) :
  snd (Validator.validate rt settings self query w) = Raise e ->
  let lo := Settings.min_query_length settings in
  let hi := Settings.max_query_length settings in
  (e = RuntimeError FailedToGenerateQueryId
   \/ e = RuntimeError (QueryTooShort lo) /\ len (strip query) < lo
   \/ e = RuntimeError (QueryTooLong hi) /\ hi < len (strip query)
   \/ e = ValidationError QueryCannotBeEmpty
      /\ strip query = [] /\ lo <= 0 <= hi)
  /\ (1 <= lo -> exists m, e = RuntimeError m).
Proof.
  intros H lo hi. rewrite validate_result in H. fold lo hi in H.
  assert (Hcases :
    e = RuntimeError FailedToGenerateQueryId
    \/ e = RuntimeError (QueryTooShort lo) /\ len (strip query) < lo
    \/ e = RuntimeError (QueryTooLong hi) /\ hi < len (strip query)
    \/ e = ValidationError QueryCannotBeEmpty
       /\ strip query = [] /\ lo <= 0 <= hi).
  { destruct (Runtime.ULID_str rt (World.ulids w)) as [query_id|];
      [|injection H as <-; now left].
    destruct (Z.ltb_spec (len (strip query)) lo);
      [injection H as <-; right; left; now split|].
    destruct (Z.gtb_spec (len (strip query)) hi);
      [injection H as <-; right; right; left; split; [reflexivity | lia]|].
    destruct (strip query) as [|c text] eqn:E.
    - rewrite <- E in H. rewrite user_query_new_blank in H
        by (rewrite strip_idem; exact E).
      injection H as <-. right; right; right.
      unfold len in *; simpl in *. repeat split; lia.
    - rewrite <- E in H. rewrite user_query_new_ok in H
        by (rewrite strip_idem, E; discriminate).
      discriminate. }
  split; [exact Hcases|].
  intros Hlo. destruct Hcases as [-> | [[-> _] | [[-> _] | (_ & _ & Hz)]]];
    eauto; lia.
Qed.

Lemma validate_errors_witness :
  snd (Validator.validate Demo.rt Settings.default Demo.validator
         (lit " a ") World.init)
  = Raise (RuntimeError (QueryTooShort 3))
  /\ exists m, RuntimeError (QueryTooShort 3) = RuntimeError m.
Proof.
  assert (H : snd (Validator.validate Demo.rt Settings.default Demo.validator
                     (lit " a ") World.init)
              = Raise (RuntimeError (QueryTooShort 3)))
    by (vm_compute; reflexivity).
  split; [exact H|].
  destruct (validate_errors Demo.rt Settings.default Demo.validator
              (lit " a ") World.init (RuntimeError (QueryTooShort 3)) H)
    as [_ Hm].
  apply Hm. vm_compute. discriminate.
Defined.

(** X4.  Whether it returns or raises, [validate] draws exactly one
    identifier, issues no chat request and does not read the clock. *)
Theorem validate_effects
    (rt : Runtime.t) (settings : Settings.t) (self : Validator.t)
    (query : str) (w : World.t) :
  let w' := fst (Validator.validate rt settings self query w) in
  World.ulids w' = S (World.ulids w)
  /\ World.llm_calls w' = World.llm_calls w
  /\ World.clock w' = World.clock w.
Proof.
  unfold Validator.validate, new_ulid. run. simpl.
  destruct (Runtime.ULID_str rt (World.ulids w)); simpl; [|easy].
  destruct (len (strip query) <? _); simpl; [easy|].
  destruct (len (strip query) >? _); easy.
Qed.

(* ================================================================== *)
(** * Further properties: scoring and retrieval *)
(* ================================================================== *)

(** X5.  The overlap score is symmetric in the two strings, lies between
    zero and the number of distinct words of either, and is zero exactly
    when they share no word. *)
Theorem overlap_bounds (rt : Runtime.t) (a b : str) :
  let score := Processor.overlap rt (words rt a) b in
  score = Processor.overlap rt (words rt b) a
  /\ 0 <= score <= Z.of_nat (size (words rt a))
  /\ score <= Z.of_nat (size (words rt b))
  /\ (score = 0 <-> forall w, ~ (w ∈ split (lower rt a)
                                 /\ w ∈ split (lower rt b))).
Proof.
  unfold Processor.overlap. cbv zeta.
  split; [now rewrite (comm_L (∩))|].
  split.
  { split; [lia|]. apply inj_le, subseteq_size, intersection_subseteq_l. }
  split; [apply inj_le, subseteq_size, intersection_subseteq_r|].
  split.
  - intros H w [Ha Hb].
    assert (Hs : size (words rt a ∩ words rt b) = 0%nat) by lia.
    apply size_empty_inv in Hs.
    assert (Hw : w ∈ words rt a ∩ words rt b)
      by (apply elem_of_intersection; split; now apply elem_of_words).
    apply Hs in Hw. now apply not_elem_of_empty in Hw.
  - intros H. apply (inj_eq _ 0%nat), size_empty_iff.
    apply elem_of_equiv_empty. intros w Hw.
    apply elem_of_intersection in Hw as [Ha Hb].
    apply elem_of_words in Ha, Hb. now apply (H w).
Qed.

Lemma retrieve_context_same_texts
    (rt : Runtime.t) (settings : Settings.t) (self : Processor.t)
    (docs : list pyobj) (texts : list str) (step query : str) (w : World.t) :
  Settings.enable_retrieval settings = true ->
  Processor.knowledge_base self = Some docs ->
  Processor.process_step self = Some step ->
  Forall2 has_text docs texts ->
  snd (Processor._retrieve_context rt settings self query w)
  = Ok (slice_to (ranking rt query texts) (Settings.top_k settings)).
Proof.
  intros He Hk Hs Ht. destruct docs as [|doc docs].
  - inversion Ht; subst. rewrite retrieve_context_no_docs by exact Hk.
    simpl. unfold ranking. simpl. now rewrite slice_to_nil.
  - now apply (retrieve_context_ranking rt settings self query (doc :: docs)
                 texts step w).
Qed.

(** X6.  [_retrieve_context] looks at nothing in a document but its text:
    two knowledge bases whose documents carry the same texts in the same
    order give the same answer, whatever other fields they hold. *)
Theorem retrieve_context_texts_only
    (rt : Runtime.t) (settings : Settings.t) (self self' : Processor.t)
    (docs docs' : list pyobj) (texts : list str) (step step' query : str)
    (w w' : World.t) :
  Settings.enable_retrieval settings = true ->
  Processor.knowledge_base self = Some docs ->
  Processor.knowledge_base self' = Some docs' ->
  Processor.process_step self = Some step ->
  Processor.process_step self' = Some step' ->
  Forall2 has_text docs texts ->
  Forall2 has_text docs' texts ->
  snd (Processor._retrieve_context rt settings self query w)
  = snd (Processor._retrieve_context rt settings self' query w').
Proof.
  intros He Hk Hk' Hs Hs' Ht Ht'.
  rewrite (retrieve_context_same_texts rt settings self docs texts step)
    by assumption.
  now rewrite (retrieve_context_same_texts rt settings self' docs' texts step')
    by assumption.
Qed.

Lemma retrieve_context_texts_only_witness :
  snd (Processor._retrieve_context Demo.rt (Demo.rag 2)
         (Demo.processor SYSTEM_RAG_PROMPT
            [PyDict (<[lit "id" := PyInt 7]>
                       {[ lit "text" := PyStr (lit Demo.text1) ]})])
         Demo.query World.init)
  = snd (Processor._retrieve_context Demo.rt (Demo.rag 2)
           (Demo.processor SYSTEM_RAG_PROMPT [Demo.doc Demo.text1])
           Demo.query World.init).
Proof.
  apply (retrieve_context_texts_only Demo.rt (Demo.rag 2) _ _
           [PyDict (<[lit "id" := PyInt 7]>
                      {[ lit "text" := PyStr (lit Demo.text1) ]})]
           [Demo.doc Demo.text1] [lit Demo.text1]
           (lit "2_processor") (lit "2_processor"));
    try reflexivity; repeat constructor.
Defined.

Lemma score_documents_ill_typed rt qw docs scored_docs :
  Exists (fun doc => text_of doc = None) docs ->
  Processor.score_documents rt qw docs scored_docs = Raise AttributeError.
Proof.
  intros H. revert scored_docs.
  induction H as [doc docs Hd | doc docs _ IH]; intros scored_docs; simpl.
  - unfold text_of in Hd.
    destruct doc; simpl in *; try reflexivity.
    destruct (d !! lit "text") as [[]|]; try reflexivity; discriminate.
  - destruct doc; simpl; try reflexivity.
    destruct (d !! lit "text") as [[]|]; try reflexivity; apply IH.
Qed.

(** X7.  With retrieval enabled, one document that is no [dict], or whose
    [text] is not a string, makes [_retrieve_context] raise
    [AttributeError] for every query, before it logs anything. *)
Theorem retrieve_context_ill_typed
    (rt : Runtime.t) (settings : Settings.t) (self : Processor.t)
    (docs : list pyobj) (query : str) (w : World.t) :
  Settings.enable_retrieval settings = true ->
  Processor.knowledge_base self = Some docs ->
  Exists (fun doc => text_of doc = None) docs ->
  Processor._retrieve_context rt settings self query w
  = (w, Raise AttributeError).
Proof.
  intros He Hk Hbad. unfold Processor._retrieve_context.
  rewrite He, Hk. run.
  destruct docs as [|doc docs]; [inversion Hbad|].
  now rewrite score_documents_ill_typed.
Qed.

Lemma retrieve_context_ill_typed_witness :
  Processor._retrieve_context Demo.rt (Demo.rag 2)
    (Demo.processor SYSTEM_RAG_PROMPT
       [Demo.doc Demo.text1; PyDict {[ lit "text" := PyInt 5 ]}])
    Demo.query World.init
  = (World.init, Raise AttributeError).
Proof.
  apply (retrieve_context_ill_typed _ _ _
           [Demo.doc Demo.text1; PyDict {[ lit "text" := PyInt 5 ]}]);
    [reflexivity | reflexivity |].
  apply Exists_cons_tl, Exists_cons_hd. reflexivity.
Defined.

Lemma slice_to_length {A} (l : list A) k :
  len (slice_to l k)
  = if 0 <=? k then Z.min k (len l) else Z.max 0 (len l + k).
Proof.
  unfold slice_to, len.
  destruct (Z.leb_spec 0 k); rewrite length_take; lia.
Qed.

Lemma slice_to_split {A} (l : list A) k :
  exists rest, l = slice_to l k ++ rest.
Proof.
  unfold slice_to. destruct (0 <=? k); eexists; symmetry; apply take_drop.
Qed.

Lemma descending_app {A} (key : A -> Z) l1 l2 :
  descending key (l1 ++ l2) ->
  forall a b, a ∈ l1 -> b ∈ l2 -> key b <= key a.
Proof.
  unfold descending. induction l1 as [|x l1 IH]; intros Hs a b Ha Hb.
  - inversion Ha.
  - simpl in Hs. inversion Hs as [|? ? Hl Hx]; subst.
    apply elem_of_cons in Ha as [-> | Ha].
    + rewrite Forall_forall in Hx. apply Hx.
      apply elem_of_app. now right.
    + now apply IH.
Qed.

(** X8.  For a knowledge base of documents with texts, [_retrieve_context]
    returns as many texts as [top_k] allows and documents of positive score
    exist: the smaller of the two numbers when [top_k] is not negative
    (none for [top_k = 0], all of them for a large [top_k]), and all but
    the last [-top_k] of them when it is negative. *)
Theorem retrieve_context_length
    (rt : Runtime.t) (settings : Settings.t) (self : Processor.t)
    (docs : list pyobj) (texts : list str) (step query : str) (w : World.t) :
  Settings.enable_retrieval settings = true ->
  Processor.knowledge_base self = Some docs ->
  Processor.process_step self = Some step ->
  Forall2 has_text docs texts ->
  let score := Processor.overlap rt (words rt query) in
  let top_k := Settings.top_k settings in
  let matching := len (filter (fun t => 0 < score t) texts) in
  exists result,
    snd (Processor._retrieve_context rt settings self query w) = Ok result
    /\ (0 <= top_k -> len result = Z.min top_k matching)
    /\ (top_k < 0 -> len result = Z.max 0 (matching + top_k)).
Proof.
  intros He Hk Hs Ht score top_k matching.
  eexists. split.
  { apply (retrieve_context_same_texts rt settings self docs texts step);
      assumption. }
  rewrite slice_to_length. fold top_k.
  assert (Hlen : len (ranking rt query texts) = matching).
  { unfold len, ranking. now rewrite sort_reverse_length. }
  rewrite Hlen.
  destruct (Z.leb_spec 0 top_k); split; intros; lia.
Qed.

Lemma retrieve_context_length_witness :
  exists result,
    snd (Processor._retrieve_context Demo.rt (Demo.rag 10)
           (Demo.processor SYSTEM_RAG_PROMPT Demo.corpus) Demo.query
           World.init)
    = Ok result
    /\ len result = 3.
Proof.
  destruct (retrieve_context_length Demo.rt (Demo.rag 10)
              (Demo.processor SYSTEM_RAG_PROMPT Demo.corpus) Demo.corpus
              (map lit [Demo.text1; Demo.text2; Demo.text3; Demo.text4])
              (lit "2_processor") Demo.query World.init)
    as (result & Hr & Hlen & _);
    [reflexivity | reflexivity | reflexivity | repeat constructor |].
  exists result. split; [exact Hr|].
  rewrite Hlen by (vm_compute; discriminate). vm_compute. reflexivity.
Defined.

(** X9.  What [_retrieve_context] returns are the best matches: the
    documents of positive score split into the returned ones and the rest,
    and no document of the rest has a higher score than a returned one. *)
Theorem retrieve_context_best_matches
    (rt : Runtime.t) (settings : Settings.t) (self : Processor.t)
    (docs : list pyobj) (texts : list str) (step query : str) (w : World.t) :
  Settings.enable_retrieval settings = true ->
  Processor.knowledge_base self = Some docs ->
  Processor.process_step self = Some step ->
  Forall2 has_text docs texts ->
  let score := Processor.overlap rt (words rt query) in
  exists result rest,
    snd (Processor._retrieve_context rt settings self query w) = Ok result
    /\ result ++ rest ≡ₚ filter (fun t => 0 < score t) texts
    /\ forall t t', t ∈ result -> t' ∈ rest -> score t' <= score t.
Proof.
  intros He Hk Hs Ht score.
  destruct (slice_to_split (ranking rt query texts) (Settings.top_k settings))
    as [rest Hsplit].
  exists (slice_to (ranking rt query texts) (Settings.top_k settings)), rest.
  split.
  { apply (retrieve_context_same_texts rt settings self docs texts step);
      assumption. }
  rewrite <- Hsplit.
  split; [apply sort_reverse_perm|].
  apply (descending_app score). rewrite <- Hsplit.
  apply sort_reverse_descending.
Qed.

Lemma retrieve_context_best_matches_witness :
  exists result rest,
    snd (Processor._retrieve_context Demo.rt (Demo.rag 2)
           (Demo.processor SYSTEM_RAG_PROMPT Demo.corpus) Demo.query
           World.init)
    = Ok result
    /\ result ++ rest
       ≡ₚ filter (fun t => 0 < Processor.overlap Demo.rt
                                 (words Demo.rt Demo.query) t)
            (map lit [Demo.text1; Demo.text2; Demo.text3; Demo.text4]).
Proof.
  destruct (retrieve_context_best_matches Demo.rt (Demo.rag 2)
              (Demo.processor SYSTEM_RAG_PROMPT Demo.corpus) Demo.corpus
              (map lit [Demo.text1; Demo.text2; Demo.text3; Demo.text4])
              (lit "2_processor") Demo.query World.init)
    as (result & rest & Hr & Hp & _);
    [reflexivity | reflexivity | reflexivity | repeat constructor |].
  exists result, rest. split; [exact Hr | exact Hp].
Defined.

(* ================================================================== *)
(** * Further properties: the processor *)
(* ================================================================== *)

Section ProcessOutcome.
Context (rt : Runtime.t) (settings : Settings.t).

Opaque lit.

(** Splits on the client's answer, on the text taken from it and on
    whether that text is empty. *)
Ltac split_reply :=
  repeat first
    [ progress simpl
    | match goal with
      | |- context [match ?client ?n ?req with Ok _ => _ | Raise _ => _ end] =>
          destruct (client n req) eqn:?
      | |- context [Processor.message_text ?x] =>
          destruct (Processor.message_text x) eqn:?
      | |- context [bool_decide (?x = [])] =>
          destruct (bool_decide_reflect (x = []))
      | |- context [is_parse_error ?e] =>
          destruct (is_parse_error e) eqn:?
      end ].

(** What [process] answers once retrieval has returned. *)
Lemma process_outcome client template step docs item w context_docs :
  let self := Processor.mk (Some client) (Some template) (Some step) docs in
  snd (Processor._retrieve_context rt settings self (UserQuery.query item) w)
  = Ok context_docs ->
  snd (Processor.process rt settings self item w)
  = match client (length (World.llm_calls w))
            (chat_request settings template (UserQuery.query item)
               context_docs) with
    | Raise _ => Raise (RuntimeError ErrorInLLMApiResponse)
    | Ok response =>
        match Processor.message_text response with
        | Ok answer =>
            if bool_decide (answer = [])
            then Raise (RuntimeError ErrorParsingLLMResponse)
            else Ok (ProcessorResult.new (UserQuery.query_id item) answer
                       context_docs)
        | Raise _ => Raise (RuntimeError ErrorParsingLLMResponse)
        end
    end.
Proof.
  intros self Hctx.
  unfold Processor.process; run; simpl.
  match goal with
  | |- context [Processor._retrieve_context rt settings self ?q ?w0] =>
      pose proof (retrieve_context_world rt settings self q w0 w) as Hw;
      pose proof (retrieve_context_calls rt settings self q w0) as Hc;
      destruct (Processor._retrieve_context rt settings self q w0)
        as [w1 r]
  end.
  simpl in Hw, Hc. rewrite Hctx in Hw. subst r.
  unfold chat_request, composed_prompt. rewrite <- Hc.
  destruct context_docs as [|doc context_docs]; simpl; split_reply;
    try reflexivity; try congruence.
  all: match goal with
       | H : Processor.message_text _ = Raise _ |- _ =>
           apply message_text_raise in H; congruence
       end.
Qed.

(** The fields of a result: the query's identifier, and as sources what
    retrieval returned. *)
Lemma process_result_fields self item w result :
  snd (Processor.process rt settings self item w) = Ok result ->
  ProcessorResult.query_id result = UserQuery.query_id item
  /\ snd (Processor._retrieve_context rt settings self (UserQuery.query item) w)
     = Ok (ProcessorResult.sources_used result).
Proof.
  unfold Processor.process. run.
  destruct (Processor.process_step self) as [step|]; [|discriminate].
  match goal with
  | |- context [Processor._retrieve_context rt settings self ?q ?w0] =>
      pose proof (retrieve_context_world rt settings self q w0 w) as Hw;
      destruct (Processor._retrieve_context rt settings self q w0)
        as [w1 [context_docs|]]; [|discriminate]
  end.
  simpl in Hw. rewrite <- Hw.
  destruct (Processor.client self) as [client|],
           (Processor.prompt_template self) as [template|];
    destruct context_docs as [|doc context_docs]; simpl;
    try discriminate; split_reply; try discriminate;
    intros [= <-]; simpl; eauto.
Qed.

(** [process] issues at most one request, and touches neither the
    identifier generator nor the clock. *)
Lemma process_world self item w :
  let w' := fst (Processor.process rt settings self item w) in
  (World.llm_calls w' = World.llm_calls w
   \/ exists request, World.llm_calls w' = World.llm_calls w ++ [request])
  /\ World.ulids w' = World.ulids w
  /\ World.clock w' = World.clock w.
Proof.
  unfold Processor.process. run.
  destruct (Processor.process_step self) as [step|] eqn:Hstep; [|simpl; eauto].
  match goal with
  | |- context [Processor._retrieve_context rt settings self ?q ?w0] =>
      pose proof (retrieve_context_calls rt settings self q w0) as Hc;
      assert (Hu : World.ulids
                     (fst (Processor._retrieve_context rt settings self q w0))
                   = World.ulids w
                   /\ World.clock
                        (fst (Processor._retrieve_context rt settings self q w0))
                      = World.clock w);
      [|destruct (Processor._retrieve_context rt settings self q w0)
          as [w1 [context_docs|]]]
  end.
  { unfold Processor._retrieve_context.
    destruct (Settings.enable_retrieval settings); [|easy].
    destruct (Processor.knowledge_base self) as [[|doc docs]|]; try easy.
    run. rewrite Hstep.
    destruct (Processor.score_documents rt _ (doc :: docs) []); easy. }
  - simpl in Hc, Hu. destruct Hu as [Hu Hk].
    destruct (Processor.client self) as [client|],
             (Processor.prompt_template self) as [template|];
      destruct context_docs as [|doc context_docs]; simpl;
      split_reply; rewrite ?Hc, ?Hu, ?Hk; eauto.
  - simpl in *. destruct Hu. eauto.
Qed.

Transparent lit.
End ProcessOutcome.

(** X10.  When the client raises on the request, whatever the exception,
    [process] raises the [RuntimeError] of the API failure; the request
    was issued once and is not repeated. *)
Theorem process_api_failure
    (rt : Runtime.t) (settings : Settings.t) (client : OpenAI)
    (template : PromptTemplate.t) (step : str) (docs : option (list pyobj))
    (item : UserQuery.t) (w : World.t) (context_docs : list str) (e : exn) :
  let self := Processor.mk (Some client) (Some template) (Some step) docs in
  let request :=
    chat_request settings template (UserQuery.query item) context_docs in
  snd (Processor._retrieve_context rt settings self (UserQuery.query item) w)
  = Ok context_docs ->
  client (length (World.llm_calls w)) request = Raise e ->
  snd (Processor.process rt settings self item w)
  = Raise (RuntimeError ErrorInLLMApiResponse)
  /\ World.llm_calls (fst (Processor.process rt settings self item w))
     = World.llm_calls w ++ [request].
Proof.
  intros self request Hctx Hfail. split.
  - pose proof (process_outcome rt settings client template step docs item w
                  context_docs Hctx) as Ho.
    cbv zeta in Ho. fold self request in Ho. rewrite Ho, Hfail. reflexivity.
  - apply (process_request rt settings client template step docs item w
             context_docs Hctx).
Qed.

Lemma process_api_failure_witness :
  snd (Processor.process Demo.rt Settings.default
         (Demo.processor_with (fun _ _ => Raise (OtherException "APIError"))
            SYSTEM_PROMPT [])
         Demo.item World.init)
  = Raise (RuntimeError ErrorInLLMApiResponse).
Proof.
  apply (process_api_failure Demo.rt Settings.default
           (fun _ _ => Raise (OtherException "APIError")) SYSTEM_PROMPT
           (lit "2_processor") (Some []) Demo.item World.init []
           (OtherException "APIError")); reflexivity.
Defined.

(** X11.  When retrieval returns, the client answers and the content of
    the first choice is not empty once trimmed, [process] returns the
    result made of the query's identifier, the trimmed content and the
    retrieved context. *)
Theorem process_success
    (rt : Runtime.t) (settings : Settings.t) (client : OpenAI)
    (template : PromptTemplate.t) (step : str) (docs : option (list pyobj))
    (item : UserQuery.t) (w : World.t) (context_docs : list str)
    (response : ChatCompletion.t) (choice : ChatCompletion.choice)
    (others : list ChatCompletion.choice) (content : str) :
  let self := Processor.mk (Some client) (Some template) (Some step) docs in
  snd (Processor._retrieve_context rt settings self (UserQuery.query item) w)
  = Ok context_docs ->
  client (length (World.llm_calls w))
    (chat_request settings template (UserQuery.query item) context_docs)
  = Ok response ->
  ChatCompletion.choices response = choice :: others ->
  ChatCompletion.content (ChatCompletion.message_of choice) = Some content ->
  strip content <> [] ->
  snd (Processor.process rt settings self item w)
  = Ok (ProcessorResult.new (UserQuery.query_id item) (strip content)
          context_docs).
Proof.
  intros self Hctx Hreply Hchoice Hcontent Hne.
  pose proof (process_outcome rt settings client template step docs item w
                context_docs Hctx) as Ho.
  cbv zeta in Ho. fold self in Ho. rewrite Ho, Hreply.
  unfold Processor.message_text. rewrite Hchoice, Hcontent.
  destruct (bool_decide_reflect (strip content = [])); [contradiction|].
  reflexivity.
Qed.

Lemma process_success_witness :
  snd (Processor.process Demo.rt (Demo.rag 2)
         (Demo.processor SYSTEM_RAG_PROMPT Demo.corpus) Demo.item World.init)
  = Ok (ProcessorResult.new (lit "01JBX5Z3NDEKTSV4RRFFQ69G50")
          (lit "Use the reset link.") [lit Demo.text1; lit Demo.text3]).
Proof.
  apply (process_success Demo.rt (Demo.rag 2)
           (Demo.reply_with (Demo.completion "  Use the reset link. "))
           SYSTEM_RAG_PROMPT (lit "2_processor") (Some Demo.corpus)
           Demo.item World.init [lit Demo.text1; lit Demo.text3]
           (Demo.completion "  Use the reset link. ")
           (ChatCompletion.mk_choice
              (ChatCompletion.mk_message
                 (Some (lit "  Use the reset link. ")))) []
           (lit "  Use the reset link. "));
    try reflexivity; try (vm_compute; reflexivity).
  vm_compute. discriminate.
Defined.

(** X12.  Whatever the state of the processor and whatever happens,
    [process] issues at most one chat request, and it consults neither the
    identifier generator nor the clock. *)
Theorem process_effects
    (rt : Runtime.t) (settings : Settings.t) (self : Processor.t)
    (item : UserQuery.t) (w : World.t) :
  let w' := fst (Processor.process rt settings self item w) in
  (World.llm_calls w' = World.llm_calls w
   \/ exists request, World.llm_calls w' = World.llm_calls w ++ [request])
  /\ World.ulids w' = World.ulids w
  /\ World.clock w' = World.clock w.
Proof. apply process_world. Qed.

(** X13.  The result of [process] names the query it was given and lists
    as sources exactly what [_retrieve_context] returned for its text. *)
Theorem process_result_sources
    (rt : Runtime.t) (settings : Settings.t) (self : Processor.t)
    (item : UserQuery.t) (w : World.t) (result : ProcessorResult.t) :
  snd (Processor.process rt settings self item w) = Ok result ->
  ProcessorResult.query_id result = UserQuery.query_id item
  /\ snd (Processor._retrieve_context rt settings self (UserQuery.query item) w)
     = Ok (ProcessorResult.sources_used result).
Proof. apply process_result_fields. Qed.

Lemma process_result_sources_witness :
  snd (Processor._retrieve_context Demo.rt (Demo.rag 2)
         (Demo.processor SYSTEM_RAG_PROMPT Demo.corpus) Demo.query World.init)
  = Ok [lit Demo.text1; lit Demo.text3].
Proof.
  apply (process_result_sources Demo.rt (Demo.rag 2)
           (Demo.processor SYSTEM_RAG_PROMPT Demo.corpus) Demo.item World.init
           (ProcessorResult.new (lit "01JBX5Z3NDEKTSV4RRFFQ69G50")
              (lit "Use the reset link.") [lit Demo.text1; lit Demo.text3])).
  vm_compute. reflexivity.
Defined.

Section ProcessFailures.
Context (rt : Runtime.t) (settings : Settings.t).

(** An exception of retrieval leaves [process] as it is. *)
Lemma process_retrieval_raises self step item w e :
  Processor.process_step self = Some step ->
  snd (Processor._retrieve_context rt settings self (UserQuery.query item) w)
  = Raise e ->
  snd (Processor.process rt settings self item w) = Raise e.
Proof.
  intros Hs Hctx. unfold Processor.process. run. rewrite Hs.
  match goal with
  | |- context [Processor._retrieve_context rt settings self ?q ?w0] =>
      pose proof (retrieve_context_world rt settings self q w0 w) as Hw;
      destruct (Processor._retrieve_context rt settings self q w0)
        as [w1 r]
  end.
  simpl in Hw. rewrite Hctx in Hw. now subst r.
Qed.

Lemma retrieve_context_raises self docs query w :
  Settings.enable_retrieval settings = true ->
  Processor.knowledge_base self = Some docs ->
  Exists (fun doc => text_of doc = None) docs ->
  snd (Processor._retrieve_context rt settings self query w)
  = Raise AttributeError.
Proof.
  intros He Hk Hbad. unfold Processor._retrieve_context.
  rewrite He, Hk. run.
  destruct docs as [|doc docs]; [inversion Hbad|].
  now rewrite score_documents_ill_typed.
Qed.

(** Texts without a shared word give an empty ranking. *)
Lemma ranking_no_match query texts :
  Forall (fun t => Processor.overlap rt (words rt query) t = 0) texts ->
  ranking rt query texts = [].
Proof.
  intros H. unfold ranking.
  replace (filter _ texts) with (@nil str); [reflexivity|].
  symmetry. induction H as [|t texts Ht _ IH]; [reflexivity|].
  rewrite filter_cons. case_decide; [lia | exact IH].
Qed.
End ProcessFailures.

(** X14.  A knowledge base with a document that is no [dict], or whose
    [text] is not a string, makes [process] raise [AttributeError] for
    every query, with retrieval enabled: the exception of retrieval is not
    turned into a [RuntimeError], and no chat request is issued. *)
Theorem process_ill_typed_corpus
    (rt : Runtime.t) (settings : Settings.t) (self : Processor.t)
    (docs : list pyobj) (step : str) (item : UserQuery.t) (w : World.t) :
  Settings.enable_retrieval settings = true ->
  Processor.knowledge_base self = Some docs ->
  Processor.process_step self = Some step ->
  Exists (fun doc => text_of doc = None) docs ->
  snd (Processor.process rt settings self item w) = Raise AttributeError
  /\ World.llm_calls (fst (Processor.process rt settings self item w))
     = World.llm_calls w.
Proof.
  intros He Hk Hs Hbad.
  pose proof (retrieve_context_raises rt settings self docs
                (UserQuery.query item) w He Hk Hbad) as Hr.
  split.
  - now apply (process_retrieval_raises rt settings self step).
  - now apply (process_no_request rt settings self item w AttributeError).
Qed.

Lemma process_ill_typed_corpus_witness :
  snd (Processor.process Demo.rt (Demo.rag 2)
         (Demo.processor SYSTEM_RAG_PROMPT
            [Demo.doc Demo.text1; PyList [PyInt 1]])
         Demo.item World.init)
  = Raise AttributeError.
Proof.
  apply (process_ill_typed_corpus Demo.rt (Demo.rag 2) _
           [Demo.doc Demo.text1; PyList [PyInt 1]] (lit "2_processor")
           Demo.item World.init); try reflexivity.
  apply Exists_cons_tl, Exists_cons_hd. reflexivity.
Defined.

(** X15.  With retrieval enabled but no document sharing a word with the
    query, [process] falls back to the direct form: the user message is the
    bare query text, and a result lists no sources. *)
Theorem process_no_match
    (rt : Runtime.t) (settings : Settings.t) (client : OpenAI)
    (template : PromptTemplate.t) (step : str) (docs : list pyobj)
    (texts : list str) (item : UserQuery.t) (w : World.t) :
  let self :=
    Processor.mk (Some client) (Some template) (Some step) (Some docs) in
  let query := UserQuery.query item in
  Settings.enable_retrieval settings = true ->
  Forall2 has_text docs texts ->
  Forall (fun t => Processor.overlap rt (words rt query) t = 0) texts ->
  World.llm_calls (fst (Processor.process rt settings self item w))
  = World.llm_calls w
    ++ [ChatRequest.mk (Settings.model_name settings)
          (PromptTemplate.prompt template) query
          (Settings.temperature settings) (Settings.max_tokens settings)]
  /\ forall result,
       snd (Processor.process rt settings self item w) = Ok result ->
       ProcessorResult.sources_used result = [].
Proof.
  intros self query He Ht Hzero.
  assert (Hctx : snd (Processor._retrieve_context rt settings self query w)
                 = Ok []).
  { rewrite (retrieve_context_same_texts rt settings self docs texts step)
      by (try assumption; reflexivity).
    rewrite ranking_no_match by exact Hzero. now rewrite slice_to_nil. }
  split.
  - apply (process_request rt settings client template step (Some docs) item
             w [] Hctx).
  - intros result Hr.
    apply process_result_fields in Hr as [_ Hr].
    fold query in Hr. rewrite Hctx in Hr. now injection Hr as <-.
Qed.

Lemma process_no_match_witness :
  World.llm_calls
    (fst (Processor.process Demo.rt (Demo.rag 2)
            (Demo.processor SYSTEM_RAG_PROMPT [Demo.doc Demo.text4])
            Demo.item World.init))
  = [ChatRequest.mk (lit "gpt-4o-mini")
       (PromptTemplate.prompt SYSTEM_RAG_PROMPT) Demo.query
       0x1.6666666666666p-1%float 1000].
Proof.
  destruct (process_no_match Demo.rt (Demo.rag 2)
              (Demo.reply_with (Demo.completion "  Use the reset link. "))
              SYSTEM_RAG_PROMPT (lit "2_processor") [Demo.doc Demo.text4]
              [lit Demo.text4] Demo.item World.init) as [Hcalls _].
  - reflexivity.
  - repeat constructor.
  - repeat constructor.
  - exact Hcalls.
Defined.

(* ================================================================== *)
(** * Further properties: the pipeline *)
(* ================================================================== *)

Section PipelineStages.
Context (rt : Runtime.t) (settings : Settings.t).

Lemma validate_ok_inv self query w u :
  snd (Validator.validate rt settings self query w) = Ok u ->
  Runtime.ULID_str rt (World.ulids w) = Ok (UserQuery.query_id u)
  /\ UserQuery.query u = strip query
  /\ Settings.min_query_length settings <= len (strip query)
     <= Settings.max_query_length settings.
Proof.
  rewrite validate_result.
  destruct (Runtime.ULID_str rt (World.ulids w)) as [query_id|]; [|discriminate].
  destruct (Z.ltb_spec (len (strip query)) (Settings.min_query_length settings));
    [discriminate|].
  destruct (Z.gtb_spec (len (strip query)) (Settings.max_query_length settings));
    [discriminate|].
  intros Hu. apply user_query_new_inv in Hu as [Hne ->]. simpl.
  rewrite strip_idem. repeat split; lia.
Qed.

Lemma validate_world self query w :
  World.ulids (fst (Validator.validate rt settings self query w))
  = S (World.ulids w)
  /\ World.clock (fst (Validator.validate rt settings self query w))
     = World.clock w.
Proof.
  unfold Validator.validate, new_ulid. run. simpl.
  destruct (Runtime.ULID_str rt (World.ulids w)); simpl; [|easy].
  destruct (len (strip query) <? _); simpl; [easy|].
  destruct (len (strip query) >? _); easy.
Qed.

(** The two stages behind a result of [Pipeline.process]. *)
Lemma pipeline_ok_inv self query w result :
  snd (Pipeline.process rt settings self query w) = Ok result ->
  exists validated w1 produced w2,
    Validator.validate rt settings (Pipeline.validator self) query
      (fst (time rt w)) = (w1, Ok validated)
    /\ Processor.process rt settings (Pipeline.processor self) validated
         (fst (logger INFO "Pipeline started" w1)) = (w2, Ok produced)
    /\ result
       = PipelineResult.mk
           (ProcessorResult.query_id produced)
           (UserQuery.query validated)
           (ProcessorResult.answer produced)
           (ProcessorResult.sources_used produced)
           ((Runtime.time_time rt (World.clock w2)
             - Runtime.time_time rt (World.clock w)) * 1000)%float
           (<[lit "sources_count" :=
                PyInt (len (ProcessorResult.sources_used produced))]>
              (<[lit "has_context" :=
                   PyBool (len (ProcessorResult.sources_used produced) >? 0)]>
                 ∅)).
Proof.
  unfold Pipeline.process. run. unfold time. simpl.
  destruct (Validator.validate rt settings (Pipeline.validator self) query _)
    as [w1 [validated|e]]; [|discriminate].
  destruct (Processor.process rt settings (Pipeline.processor self)
              validated _) as [w2 [produced|e]] eqn:E; [|discriminate].
  intros [= <-]. exists validated, w1, produced, w2.
  split; [reflexivity|]. split; [exact E | reflexivity].
Qed.

(** The failure of a stage is the failure of the pipeline. *)
Lemma pipeline_stops_at_processor self query w validated w1 e :
  Validator.validate rt settings (Pipeline.validator self) query
    (fst (time rt w)) = (w1, Ok validated) ->
  snd (Processor.process rt settings (Pipeline.processor self) validated
         (fst (logger INFO "Pipeline started" w1))) = Raise e ->
  snd (Pipeline.process rt settings self query w) = Raise e.
Proof.
  intros Hv Hp. unfold Pipeline.process. run. unfold time in *.
  simpl in *. rewrite Hv.
  destruct (Processor.process rt settings (Pipeline.processor self)
              validated _) as [w2 [produced|e']]; simpl in *; congruence.
Qed.

Lemma pipeline_raise_inv self query w e :
  snd (Pipeline.process rt settings self query w) = Raise e ->
  snd (Validator.validate rt settings (Pipeline.validator self) query
         (fst (time rt w))) = Raise e
  \/ exists validated w1,
       Validator.validate rt settings (Pipeline.validator self) query
         (fst (time rt w)) = (w1, Ok validated)
       /\ snd (Processor.process rt settings (Pipeline.processor self)
                 validated (fst (logger INFO "Pipeline started" w1)))
          = Raise e.
Proof.
  unfold Pipeline.process. run. unfold time. simpl.
  destruct (Validator.validate rt settings (Pipeline.validator self) query _)
    as [w1 [validated|e']]; simpl; [|intros [= <-]; now left].
  destruct (Processor.process rt settings (Pipeline.processor self)
              validated _) as [w2 [produced|e']] eqn:E; [discriminate|].
  intros [= <-]. right. exists validated, w1. split; [reflexivity|].
  unfold logger. simpl. now rewrite E.
Qed.
End PipelineStages.

Section PipelineWorld.
Context (rt : Runtime.t) (settings : Settings.t).

(** The chat requests after [Pipeline.process] are those after its
    processor stage, or those after validation when validation fails. *)
Lemma pipeline_calls_inv self query w :
  let w0 := fst (time rt w) in
  let validation :=
    Validator.validate rt settings (Pipeline.validator self) query w0 in
  World.llm_calls (fst (Pipeline.process rt settings self query w))
  = match snd validation with
    | Ok validated =>
        World.llm_calls
          (fst (Processor.process rt settings (Pipeline.processor self)
                  validated
                  (fst (logger INFO "Pipeline started" (fst validation)))))
    | Raise _ => World.llm_calls w
    end.
Proof.
  intros w0 validation. subst validation w0.
  pose proof (validate_calls rt settings (Pipeline.validator self) query
                (fst (time rt w))) as Hc.
  unfold Pipeline.process. run. unfold time in *. simpl in *.
  destruct (Validator.validate rt settings (Pipeline.validator self) query _)
    as [w1 [validated|e]]; simpl in *; [|exact Hc].
  destruct (Processor.process rt settings (Pipeline.processor self)
              validated _) as [w2 [produced|e']]; reflexivity.
Qed.
End PipelineWorld.

(** X16.  A result of [Pipeline.process] carries the identifier that was
    generated, the trimmed query (its length within the bounds), an answer
    that is a non-empty trimmed text, as sources what retrieval returns for
    the trimmed query, and as processing time the difference of two
    successive readings of the clock, in milliseconds. *)
Theorem pipeline_result_fields
    (rt : Runtime.t) (settings : Settings.t) (self : Pipeline.t)
    (query : str) (w : World.t) (result : PipelineResult.t) :
  snd (Pipeline.process rt settings self query w) = Ok result ->
  Runtime.ULID_str rt (World.ulids w) = Ok (PipelineResult.query_id result)
  /\ PipelineResult.query result = strip query
  /\ Settings.min_query_length settings <= len (PipelineResult.query result)
     <= Settings.max_query_length settings
  /\ PipelineResult.answer result <> []
  /\ strip (PipelineResult.answer result) = PipelineResult.answer result
  /\ snd (Processor._retrieve_context rt settings (Pipeline.processor self)
            (strip query) w)
     = Ok (PipelineResult.sources result)
  /\ PipelineResult.processing_time_ms result
     = ((Runtime.time_time rt (S (World.clock w))
         - Runtime.time_time rt (World.clock w)) * 1000)%float.
Proof.
  intros H.
  apply pipeline_ok_inv in H
    as (validated & w1 & produced & w2 & Hv & Hp & ->). simpl.
  pose proof (validate_ok_inv rt settings (Pipeline.validator self) query
                (fst (time rt w)) validated) as Hinv.
  pose proof (validate_world rt settings (Pipeline.validator self) query
                (fst (time rt w))) as [_ Hclock].
  rewrite Hv in Hinv, Hclock. simpl in Hinv, Hclock.
  destruct (Hinv eq_refl) as (Hid & Hq & Hb).
  pose proof (process_result_fields rt settings (Pipeline.processor self)
                validated (fst (logger INFO "Pipeline started" w1)) produced)
    as Hf.
  pose proof (process_answer rt settings (Pipeline.processor self)
                validated (fst (logger INFO "Pipeline started" w1)) produced)
    as Ha.
  pose proof (process_world rt settings (Pipeline.processor self)
                validated (fst (logger INFO "Pipeline started" w1)))
    as (_ & _ & Hk).
  rewrite Hp in Hf, Ha, Hk. simpl in Hf, Ha, Hk.
  destruct (Hf eq_refl) as [Hqid Hsrc]. destruct (Ha eq_refl) as [Hne Hs].
  rewrite Hqid, Hq. repeat split; try assumption; try lia.
  - rewrite <- Hq.
    rewrite (retrieve_context_world rt settings _ _ w
               {| World.logs := World.logs w1 ++ [(INFO, "Pipeline started")];
                  World.llm_calls := World.llm_calls w1;
                  World.ulids := World.ulids w1;
                  World.clock := World.clock w1 |}).
    exact Hsrc.
  - now rewrite Hk, Hclock.
Qed.

Lemma pipeline_result_fields_witness :
  exists result,
    snd (Pipeline.process Demo.rt (Demo.rag 2)
           (Demo.pipeline SYSTEM_RAG_PROMPT Demo.corpus)
           (lit "  Reset my password ") World.init)
    = Ok result
    /\ PipelineResult.query result = lit "Reset my password"
    /\ PipelineResult.processing_time_ms result = 1250%float.
Proof.
  destruct (snd (Pipeline.process Demo.rt (Demo.rag 2)
                   (Demo.pipeline SYSTEM_RAG_PROMPT Demo.corpus)
                   (lit "  Reset my password ") World.init))
    as [result|e] eqn:E.
  - exists result. split; [reflexivity|].
    destruct (pipeline_result_fields _ _ _ _ _ _ E)
      as (_ & Hq & _ & _ & _ & _ & Ht).
    split; [rewrite Hq | rewrite Ht]; vm_compute; reflexivity.
  - vm_compute in E. discriminate.
Defined.

(** X17.  [Pipeline.process] raises exactly what one of its stages raises:
    an exception of [validate], or, after a successful validation, an
    exception of the processor; it adds no failure of its own and wraps
    none. *)
Theorem pipeline_propagates
    (rt : Runtime.t) (settings : Settings.t) (self : Pipeline.t)
    (query : str) (w : World.t) (e : exn) :
  let w0 := fst (time rt w) in
  let validate := Validator.validate rt settings (Pipeline.validator self) in
  let process := Processor.process rt settings (Pipeline.processor self) in
  snd (Pipeline.process rt settings self query w) = Raise e
  <-> (snd (validate query w0) = Raise e
       \/ exists validated w1,
            validate query w0 = (w1, Ok validated)
            /\ snd (process validated
                      (fst (logger INFO "Pipeline started" w1))) = Raise e).
Proof.
  intros w0 validate process. split.
  - apply pipeline_raise_inv.
  - intros [H | (validated & w1 & Hv & Hp)].
    + now rewrite (pipeline_stops_at_validation rt settings self query w e).
    + now apply (pipeline_stops_at_processor rt settings self query w
                   validated w1).
Qed.

(** X18.  One call of [Pipeline.process] issues at most one chat request,
    and none when validation fails. *)
Theorem pipeline_at_most_one_request
    (rt : Runtime.t) (settings : Settings.t) (self : Pipeline.t)
    (query : str) (w : World.t) :
  let w' := fst (Pipeline.process rt settings self query w) in
  (World.llm_calls w' = World.llm_calls w
   \/ exists request, World.llm_calls w' = World.llm_calls w ++ [request])
  /\ (forall e,
        snd (Validator.validate rt settings (Pipeline.validator self) query
               (fst (time rt w))) = Raise e ->
        World.llm_calls w' = World.llm_calls w).
Proof.
  intros w'. subst w'. rewrite pipeline_calls_inv.
  pose proof (validate_calls rt settings (Pipeline.validator self) query
                (fst (time rt w))) as Hc.
  destruct (Validator.validate rt settings (Pipeline.validator self) query
              (fst (time rt w))) as [w1 [validated|e]]; simpl in *.
  - split; [|discriminate].
    destruct (process_world rt settings (Pipeline.processor self) validated
                (fst (logger INFO "Pipeline started" w1))) as [Hreq _].
    simpl in Hreq. rewrite <- Hc. exact Hreq.
  - split; [now left | reflexivity].
Qed.

Lemma pipeline_at_most_one_request_witness :
  World.llm_calls
    (fst (Pipeline.process Demo.rt Settings.default
            (Demo.pipeline SYSTEM_PROMPT []) (lit " a ") World.init))
  = [].
Proof.
  destruct (pipeline_at_most_one_request Demo.rt Settings.default
              (Demo.pipeline SYSTEM_PROMPT []) (lit " a ") World.init)
    as [_ H].
  apply (H (RuntimeError (QueryTooShort 3))). vm_compute. reflexivity.
Defined.

(** X19.  With retrieval disabled, a result of [Pipeline.process] has no
    sources, a source count of 0 and no context, and the one chat request
    behind it carries the template's prompt and, as user message, the
    trimmed query itself. *)
Theorem pipeline_direct_mode
    (rt : Runtime.t) (settings : Settings.t) (validator : Validator.t)
    (client : OpenAI) (template : PromptTemplate.t) (step pipeline_step : str)
    (docs : option (list pyobj)) (query : str) (w : World.t)
    (result : PipelineResult.t) :
  let self :=
    Pipeline.mk validator
      (Processor.mk (Some client) (Some template) (Some step) docs)
      pipeline_step in
  Settings.enable_retrieval settings = false ->
  snd (Pipeline.process rt settings self query w) = Ok result ->
  PipelineResult.sources result = []
  /\ PipelineResult.metadata result !! lit "sources_count" = Some (PyInt 0)
  /\ PipelineResult.metadata result !! lit "has_context"
     = Some (PyBool false)
  /\ World.llm_calls (fst (Pipeline.process rt settings self query w))
     = World.llm_calls w
       ++ [ChatRequest.mk (Settings.model_name settings)
             (PromptTemplate.prompt template) (strip query)
             (Settings.temperature settings) (Settings.max_tokens settings)].
Proof.
  intros self Hoff H.
  pose proof (pipeline_calls_inv rt settings self query w) as Hcalls.
  cbv zeta in Hcalls.
  apply pipeline_ok_inv in H
    as (validated & w1 & produced & w2 & Hv & Hp & ->).
  subst self. cbn [Pipeline.validator Pipeline.processor] in *.
  pose proof (validate_calls rt settings validator query (fst (time rt w)))
    as Hc.
  pose proof (validate_ok_inv rt settings validator query (fst (time rt w))
                validated) as Hinv.
  rewrite Hv in Hc, Hinv, Hcalls.
  cbn [fst snd] in Hc, Hinv, Hcalls.
  destruct (Hinv eq_refl) as (_ & Hq & _).
  pose proof (process_result_fields rt settings
                (Processor.mk (Some client) (Some template) (Some step) docs)
                validated (fst (logger INFO "Pipeline started" w1)) produced)
    as Hf.
  rewrite Hp in Hf. destruct (Hf eq_refl) as [_ Hsrc].
  rewrite retrieve_context_off in Hsrc by exact Hoff.
  cbn [snd] in Hsrc. injection Hsrc as Hsrc. rewrite <- Hsrc.
  cbn [PipelineResult.sources PipelineResult.metadata len length].
  split; [reflexivity|].
  split; [apply lookup_insert_eq|].
  split.
  { rewrite lookup_insert_ne by apply metadata_keys_differ.
    apply lookup_insert_eq. }
  rewrite Hcalls.
  rewrite (process_request rt settings client template step docs validated
             (fst (logger INFO "Pipeline started" w1)) [])
    by (rewrite retrieve_context_off by exact Hoff; reflexivity).
  cbn [logger fst World.llm_calls]. rewrite Hc, Hq. reflexivity.
Qed.

Lemma pipeline_direct_mode_witness :
  exists result,
    snd (Pipeline.process Demo.rt Settings.default
           (Demo.pipeline SYSTEM_PROMPT Demo.corpus)
           (lit " How do I reset my password? ") World.init)
    = Ok result
    /\ PipelineResult.sources result = []
    /\ PipelineResult.metadata result !! lit "has_context"
       = Some (PyBool false).
Proof.
  destruct (snd (Pipeline.process Demo.rt Settings.default
                   (Demo.pipeline SYSTEM_PROMPT Demo.corpus)
                   (lit " How do I reset my password? ") World.init))
    as [result|e] eqn:E.
  - exists result. split; [reflexivity|].
    destruct (pipeline_direct_mode Demo.rt Settings.default Demo.validator
                (Demo.reply_with (Demo.completion "  Use the reset link. "))
                SYSTEM_PROMPT (lit "2_processor") (lit "0_pipeline")
                (Some Demo.corpus) (lit " How do I reset my password? ")
                World.init result eq_refl E) as (Hs & _ & Hc & _).
    now split.
  - vm_compute in E. discriminate.
Defined.

(* ================================================================== *)
(** * Further properties: loading the knowledge base *)
(* ================================================================== *)

Section LoadingMore.
Context (rt : Runtime.t) (settings : Settings.t).

Lemma read_documents_ok lines docs read :
  Forall2 (fun line doc => Runtime.json_loads rt (strip line) = Ok doc)
    lines docs ->
  Processor.read_documents rt lines read = Ok (read ++ docs).
Proof.
  intros H. revert read.
  induction H as [|line doc lines docs Hl _ IH]; intros read; simpl.
  - now rewrite app_nil_r.
  - rewrite Hl, IH. now rewrite <- app_assoc.
Qed.
End LoadingMore.

(** X20.  When every line of the knowledge-base file parses,
    [_load_knowledge_base] returns the parsed documents, one per line and
    in the order of the lines, and logs nothing; an empty file gives the
    empty collection. *)
Theorem load_knowledge_base_parsed
    (rt : Runtime.t) (settings : Settings.t) (self : Processor.t)
    (lines : list str) (docs : list pyobj) (w : World.t) :
  Runtime.open_lines rt (Settings.knowledge_base_path settings) = Ok lines ->
  Forall2 (fun line doc => Runtime.json_loads rt (strip line) = Ok doc)
    lines docs ->
  Processor._load_knowledge_base rt settings self w = (w, Ok docs)
  /\ length docs = length lines.
Proof.
  intros Ho Hl. split.
  - unfold Processor._load_knowledge_base. run. rewrite Ho.
    now rewrite (read_documents_ok rt lines docs []).
  - symmetry. now apply Forall2_length in Hl.
Qed.

Lemma load_knowledge_base_parsed_witness :
  Processor._load_knowledge_base
    (Demo.runtime Demo.ULID_str
       (Demo.one_file (lit "data/faq.jsonl")
          [Demo.json_line Demo.text1; Demo.json_line Demo.text3])
       (Demo.reply_with (Demo.completion "ok")))
    (Demo.rag 3) Processor.blank World.init
  = (World.init, Ok [Demo.doc Demo.text1; Demo.doc Demo.text3]).
Proof.
  apply (load_knowledge_base_parsed _ (Demo.rag 3) Processor.blank
           [Demo.json_line Demo.text1; Demo.json_line Demo.text3]
           [Demo.doc Demo.text1; Demo.doc Demo.text3] World.init).
  - reflexivity.
  - repeat constructor; vm_compute; reflexivity.
Defined.

(** X21.  When the knowledge-base file cannot be opened,
    [_load_knowledge_base] returns the empty collection and logs one
    record: a warning when the file is missing, an error for any other
    exception. *)
Theorem load_knowledge_base_unreadable
    (rt : Runtime.t) (settings : Settings.t) (self : Processor.t)
    (step : str) (w : World.t) (e : exn) :
  Processor.process_step self = Some step ->
  Runtime.open_lines rt (Settings.knowledge_base_path settings) = Raise e ->
  Processor._load_knowledge_base rt settings self w
  = (World.mk
       (World.logs w
        ++ [match e with
            | FileNotFoundError => (WARNING, "Knowledge base file not found")
            | _ => (ERROR, "Failed to load knowledge base")
            end])
       (World.llm_calls w) (World.ulids w) (World.clock w),
     Ok []).
Proof.
  intros Hs Ho. unfold Processor._load_knowledge_base. run.
  rewrite Ho, Hs. now destruct e.
Qed.

Lemma load_knowledge_base_unreadable_witness :
  Processor._load_knowledge_base Demo.rt (Demo.rag 3)
    (Demo.processor SYSTEM_RAG_PROMPT []) World.init
  = (World.mk [(WARNING, "Knowledge base file not found")] [] 0%nat 0%nat,
     Ok []).
Proof.
  apply (load_knowledge_base_unreadable Demo.rt (Demo.rag 3)
           (Demo.processor SYSTEM_RAG_PROMPT []) (lit "2_processor")
           World.init FileNotFoundError); reflexivity.
Defined.

(** X22.  One line of the file that [json.loads] refuses makes
    [_load_knowledge_base] give up the whole file: it returns the empty
    collection, also dropping the documents of the lines before, and logs
    one record. *)
Theorem load_knowledge_base_all_or_nothing
    (rt : Runtime.t) (settings : Settings.t) (self : Processor.t)
    (step : str) (before after : list str) (line : str) (e : exn)
    (w : World.t) :
  Processor.process_step self = Some step ->
  Runtime.open_lines rt (Settings.knowledge_base_path settings)
  = Ok (before ++ line :: after) ->
  Runtime.json_loads rt (strip line) = Raise e ->
  exists record,
    Processor._load_knowledge_base rt settings self w
    = (World.mk (World.logs w ++ [record])
         (World.llm_calls w) (World.ulids w) (World.clock w),
       Ok []).
Proof.
  intros Hs Ho Hbad.
  apply (load_knowledge_base_malformed rt settings self step
           (before ++ line :: after) w Hs Ho).
  apply Exists_app. right. apply Exists_cons_hd. eauto.
Qed.

Lemma load_knowledge_base_all_or_nothing_witness :
  exists record,
    Processor._load_knowledge_base
      (Demo.runtime Demo.ULID_str
         (Demo.one_file (lit "data/faq.jsonl")
            [Demo.json_line Demo.text1; lit "not json" ++ nl;
             Demo.json_line Demo.text3])
         (Demo.reply_with (Demo.completion "ok")))
      (Demo.rag 3) (Demo.processor SYSTEM_RAG_PROMPT []) World.init
    = (World.mk (World.logs World.init ++ [record]) [] 0%nat 0%nat, Ok []).
Proof.
  apply (load_knowledge_base_all_or_nothing _ (Demo.rag 3)
           (Demo.processor SYSTEM_RAG_PROMPT []) (lit "2_processor")
           [Demo.json_line Demo.text1] [Demo.json_line Demo.text3]
           (lit "not json" ++ nl) JSONDecodeError World.init);
    vm_compute; reflexivity.
Defined.

(* ================================================================== *)
(** * Further properties: start-up *)
(* ================================================================== *)

(** X23.  [get_pipeline] returns the pipeline it holds without touching
    the world.  While it holds none it raises what the construction of the
    pipeline raises, so nothing is kept for the next call; [startup_event]
    then raises too, after the banner and the first two records of the
    construction and before any record that the server is ready. *)
Theorem startup_never_ready
    (rt : Runtime.t) (settings : Settings.t) (pipeline : Pipeline.t)
    (w : World.t) :
  Main.get_pipeline rt settings (Some pipeline) w
  = (w, Ok (Some pipeline, pipeline))
  /\ (exists e, snd (Main.get_pipeline rt settings None w) = Raise e
                /\ snd (Pipeline.__init__ rt settings w) = Raise e)
  /\ (exists e, snd (Main.startup_event rt settings None w) = Raise e)
  /\ World.logs (fst (Main.startup_event rt settings None w))
     = World.logs w
       ++ [(INFO, "==================================================");
           (INFO, "🚀 API Server Starting...");
           (INFO, "==================================================");
           (INFO, "Initializing pipeline components...");
           (INFO, "✓ Validator ready")].
Proof.
  split; [reflexivity|].
  assert (Hinit : forall w0,
            Pipeline.__init__ rt settings w0
            = (World.mk
                 (World.logs w0
                  ++ [(INFO, "Initializing pipeline components...");
                      (INFO, "✓ Validator ready")])
                 (World.llm_calls w0) (World.ulids w0) (World.clock w0),
               match Runtime.OpenAI_new rt (Settings.openai_api_key settings)
               with
               | Ok _ => Raise AttributeError
               | Raise e => Raise e
               end)).
  { intros w0. unfold Pipeline.__init__, Validator.__init__. run.
    rewrite processor_init_result. simpl.
    destruct (Runtime.OpenAI_new rt _); rewrite <- app_assoc; reflexivity. }
  split.
  { unfold Main.get_pipeline. run. rewrite Hinit. simpl.
    destruct (Runtime.OpenAI_new rt _); eauto. }
  unfold Main.startup_event, Main.get_pipeline. run. simpl.
  rewrite Hinit.
  destruct (Runtime.OpenAI_new rt _); simpl;
    (split; [eauto | rewrite <- !app_assoc; reflexivity]).
Qed.
